(** * Journaling backend: the doodle generator and the insights aggregator

    A shallow embedding of [generate_doodle] and [insights_summary] of
    [src/main.py], and the properties the specification states about them.

    Modelling conventions.
    - A Python [str] is a [string] of code points below 256.
    - A Python [int] is a [Z]; a Python [float] is a binary64 [float].
    - A Python [dict] keeps its insertion order, which [Counter.most_common]
      observes: it is a list of (key, value) pairs with distinct keys.
    - A call that can raise returns a [result]; statements that mutate a
      dictionary before raising run in [M], where the mutation survives the
      exception, as it does in Python. *)

From Stdlib Require Import List String Ascii ZArith Lia Bool Arith Floats.
From Stdlib Require Import Sorting.Sorted Sorting.Permutation.
Import ListNotations.

Set Implicit Arguments.

(** ** The Python runtime the two functions rely on *)

Module Py.

(** *** Exceptions and results *)

(** The exception classes the modelled builtins raise; each is a subclass
    of [Exception]. *)
Inductive exn : Type :=
| KeyError
| ValueError
| TypeError
| OverflowError
| ZeroDivisionError.

Inductive result (A : Type) : Type :=
| Ok (a : A)
| Raise (e : exn).

Arguments Ok {A} a.
Arguments Raise {A} e.

Definition bind {A B : Type} (m : result A) (k : A -> result B) : result B :=
  match m with
  | Ok a => k a
  | Raise e => Raise e
  end.

(** *** Strings *)

Definition code (c : ascii) : nat := nat_of_ascii c.

Definition between (lo hi : nat) (c : ascii) : bool :=
  (lo <=? code c)%nat && (code c <=? hi)%nat.

Definition is_ascii_upper (c : ascii) : bool := between 65 90 c.
Definition is_ascii_lower (c : ascii) : bool := between 97 122 c.
Definition is_digit (c : ascii) : bool := between 48 57 c.

(** [c.lower()] on one code point below 256: A-Z, and the Latin-1 capitals
    U+00C0..U+00DE except the multiplication sign U+00D7, move up by 32. *)
Definition lower_char (c : ascii) : ascii :=
  if is_ascii_upper c || (between 192 222 c && negb (code c =? 215)%nat)
  then ascii_of_nat (code c + 32)
  else c.

(** [s.lower()] *)
Fixpoint lower (s : string) : string :=
  match s with
  | EmptyString => EmptyString
  | String c s' => String (lower_char c) (lower s')
  end.

(** [c.isspace()] on a code point below 256. *)
Definition isspace (c : ascii) : bool :=
  between 9 13 c || between 28 32 c || (code c =? 133)%nat || (code c =? 160)%nat.

Definition flush (cur : string) : list string :=
  match cur with
  | EmptyString => []
  | _ => [cur]
  end.

(** The maximal non-empty runs of characters satisfying [p], left to
    right; [cur] is the run being read. *)
Fixpoint runs_from (p : ascii -> bool) (cur s : string) : list string :=
  match s with
  | EmptyString => flush cur
  | String c s' =>
      if p c then runs_from p (cur ++ String c EmptyString) s'
      else flush cur ++ runs_from p EmptyString s'
  end.

Definition runs (p : ascii -> bool) (s : string) : list string :=
  runs_from p EmptyString s.

(** [s.split()] with no argument: the runs of non-whitespace. *)
Definition split (s : string) : list string :=
  runs (fun c => negb (isspace c)) s.

(** [sep.join(parts)] *)
Definition join (sep : string) (parts : list string) : string :=
  String.concat sep parts.

(** [t in xs] for a collection of strings. *)
Definition str_in (t : string) (xs : list string) : bool :=
  existsb (String.eqb t) xs.

(** *** Dictionaries *)

Definition dict (V : Type) : Type := list (string * V).

(** [d.get(k)] *)
Fixpoint get {V : Type} (d : dict V) (k : string) : option V :=
  match d with
  | [] => None
  | (k', v) :: d' => if String.eqb k' k then Some v else get d' k
  end.

(** [d.get(k, dflt)] *)
Definition get_default {V : Type} (d : dict V) (k : string) (dflt : V) : V :=
  match get d k with
  | Some v => v
  | None => dflt
  end.

(** [k in d] *)
Definition contains {V : Type} (d : dict V) (k : string) : bool :=
  match get d k with
  | Some _ => true
  | None => false
  end.

(** [d[k]] as an expression: [KeyError] on a missing key. *)
Definition subscript {V : Type} (d : dict V) (k : string) : result V :=
  match get d k with
  | Some v => Ok v
  | None => Raise KeyError
  end.

(** [d[k] = v]: an existing key keeps its place, a new one goes last. *)
Fixpoint set {V : Type} (d : dict V) (k : string) (v : V) : dict V :=
  match d with
  | [] => [(k, v)]
  | (k', v') :: d' =>
      if String.eqb k' k then (k', v) :: d' else (k', v') :: set d' k v
  end.

(** The dictionary after [d.setdefault(k, dflt)]. *)
Definition setdefault {V : Type} (d : dict V) (k : string) (dflt : V) : dict V :=
  if contains d k then d else set d k dflt.

Definition keys {V : Type} (d : dict V) : list string := map fst d.
Definition values {V : Type} (d : dict V) : list V := map snd d.

(** *** Values of type [Any] *)

#[warnings="-register-all"]
Inductive pyval : Type :=
| PyNone
| PyBool (b : bool)
| PyInt (z : Z)
| PyFloat (f : float)
| PyStr (s : string)
| PyList (l : list pyval)
| PyDict (d : list (string * pyval)).

(** [v == s] for a string [s]: only an equal string is equal to it. *)
Definition eq_str (v : pyval) (s : string) : bool :=
  match v with
  | PyStr t => String.eqb t s
  | _ => false
  end.

(** [v in (s1, ..., sn)] for a tuple of strings. *)
Definition in_strs (v : pyval) (ss : list string) : bool :=
  existsb (eq_str v) ss.

(** [d.get(k)] as a value: [None] for a missing key. *)
Definition get_any (d : dict pyval) (k : string) : pyval :=
  get_default d k PyNone.

(** *** Counter *)

(** [Counter(words)]: [self[elem] = self.get(elem, 0) + 1] for each element
    in turn. *)
Definition count_elem (c : dict Z) (elem : string) : dict Z :=
  set c elem (get_default c elem 0 + 1)%Z.

Definition Counter (words : list string) : dict Z :=
  fold_left count_elem words [].

(** [sorted(items, key=itemgetter(1), reverse=True)]: a stable sort, so
    items of equal count keep the order they have in [items]. *)
Fixpoint insert_desc (it : string * Z) (sorted : list (string * Z)) : list (string * Z) :=
  match sorted with
  | [] => [it]
  | it' :: rest =>
      if (snd it <? snd it')%Z then it' :: insert_desc it rest
      else it :: it' :: rest
  end.

Fixpoint sorted_desc (items : list (string * Z)) : list (string * Z) :=
  match items with
  | [] => []
  | it :: rest => insert_desc it (sorted_desc rest)
  end.

(** [c.most_common(n)] is [heapq.nlargest(n, c.items(), key=itemgetter(1))],
    which the library defines as
    [sorted(c.items(), key=itemgetter(1), reverse=True)[:n]]. *)
Definition most_common (n : nat) (c : dict Z) : list (string * Z) :=
  firstn n (sorted_desc c).

(** [enumerate(l)] *)
Fixpoint enumerate_from {A : Type} (i : nat) (l : list A) : list (nat * A) :=
  match l with
  | [] => []
  | a :: l' => (i, a) :: enumerate_from (S i) l'
  end.

Definition enumerate {A : Type} (l : list A) : list (nat * A) :=
  enumerate_from 0 l.

(** *** float(), sum() and true division *)

(** The binary64 nearest to an integer, ties to even. *)
Definition float_of_Z (z : Z) : float :=
  SF2Prim (binary_normalize prec emax z 0 false).

(** The binary64 nearest to [n / d], ties to even, for [0 <= n] and
    [0 < d]: the quotient is taken with at least 64 significant bits and a
    sticky bit for the remainder, then rounded once. *)
Definition float_of_ratio (n d : Z) : float :=
  if (n =? 0)%Z then float_of_Z 0
  else
    let k := Z.max 0 (64 + Z.log2_up d - Z.log2 n) in
    let q := (n * 2 ^ k / d)%Z in
    let sticky := if (n * 2 ^ k mod d =? 0)%Z then 0%Z else 1%Z in
    SF2Prim (binary_normalize prec emax (2 * q + sticky) (- (k + 1)) false).

(** The white space [float] strips from both ends of a string. *)
Definition is_float_space (c : ascii) : bool :=
  between 9 13 c || (code c =? 32)%nat || (code c =? 133)%nat || (code c =? 160)%nat.

Fixpoint lstrip (l : list ascii) : list ascii :=
  match l with
  | [] => []
  | c :: l' => if is_float_space c then lstrip l' else l
  end.

Definition strip (l : list ascii) : list ascii :=
  rev (lstrip (rev (lstrip l))).

Definition is_underscore (c : ascii) : bool := (code c =? 95)%nat.

(** Digit grouping: an underscore is accepted between two digits only,
    and is dropped; [prev] is the character just read. *)
Fixpoint drop_underscores (prev : ascii) (l : list ascii) : option (list ascii) :=
  match l with
  | [] => if is_underscore prev then None else Some []
  | c :: l' =>
      if is_underscore c then
        if is_digit prev then drop_underscores c l' else None
      else if is_underscore prev && negb (is_digit c) then None
      else option_map (cons c) (drop_underscores c l')
  end.

(** The longest prefix satisfying [p], and the rest. *)
Fixpoint span (p : ascii -> bool) (l : list ascii) : list ascii * list ascii :=
  match l with
  | [] => ([], [])
  | c :: l' =>
      if p c then let (a, b) := span p l' in (c :: a, b) else ([], l)
  end.

Definition digits_value (ds : list ascii) : Z :=
  fold_left (fun acc c => (10 * acc + (Z.of_nat (code c) - 48))%Z) ds 0%Z.

(** An optional sign: whether it is a minus, and the rest. *)
Definition parse_sign (l : list ascii) : bool * list ascii :=
  match l with
  | c :: l' =>
      if (code c =? 45)%nat then (true, l')
      else if (code c =? 43)%nat then (false, l')
      else (false, l)
  | [] => (false, [])
  end.

Definition is_exp_mark (c : ascii) : bool :=
  (code c =? 101)%nat || (code c =? 69)%nat.

(** The exponent part, which may be absent: [[eE][+-]?digits] up to the end
    of the string. *)
Definition parse_exponent (l : list ascii) : option Z :=
  match l with
  | [] => Some 0%Z
  | c :: l' =>
      if is_exp_mark c then
        let (neg, l1) := parse_sign l' in
        match span is_digit l1 with
        | ((_ :: _) as ds, []) =>
            Some (if neg then (- digits_value ds)%Z else digits_value ds)
        | _ => None
        end
      else None
  end.

(** An unsigned decimal literal: digits, an optional point with digits on
    either side (one digit at least overall) and an optional exponent. *)
Definition parse_decimal (l : list ascii) : option float :=
  let (ip, r1) := span is_digit l in
  let (fp, r2) :=
    match r1 with
    | c :: r => if (code c =? 46)%nat then span is_digit r else ([], r1)
    | [] => ([], r1)
    end in
  match ip ++ fp with
  | [] => None
  | ds =>
      match parse_exponent r2 with
      | Some e =>
          let e10 := (e - Z.of_nat (List.length fp))%Z in
          Some (float_of_ratio (digits_value ds * 10 ^ Z.max 0 e10)
                               (10 ^ Z.max 0 (- e10)))
      | None => None
      end
  end.

(** [inf], [infinity] and [nan], in any case. *)
Definition parse_special (l : list ascii) : option float :=
  let w := lower (string_of_list_ascii l) in
  if String.eqb w "inf" || String.eqb w "infinity" then Some infinity
  else if String.eqb w "nan" then Some nan
  else None.

(** [float(s)] for a string. *)
Definition float_of_str (s : string) : result float :=
  match strip (list_ascii_of_string s) with
  | [] => Raise ValueError
  | l =>
      match drop_underscores Ascii.zero l with
      | None => Raise ValueError
      | Some l1 =>
          let (neg, l2) := parse_sign l1 in
          let magnitude :=
            match parse_special l2 with
            | Some f => Some f
            | None => parse_decimal l2
            end in
          match magnitude with
          | Some f => Ok (if neg then (- f)%float else f)
          | None => Raise ValueError
          end
      end
  end.

(** [float(v)] *)
Definition py_float (v : pyval) : result float :=
  match v with
  | PyNone => Raise TypeError
  | PyBool b => Ok (if b then float_of_Z 1 else float_of_Z 0)
  | PyInt z =>
      let f := float_of_Z z in
      if is_infinity f then Raise OverflowError else Ok f
  | PyFloat f => Ok f
  | PyStr s => float_of_str s
  | PyList _ => Raise TypeError
  | PyDict _ => Raise TypeError
  end.

(** [sum(v)] for a list of floats: the items are added to the integer 0
    from left to right. *)
Definition py_sum (v : list float) : float :=
  fold_left PrimFloat.add v (float_of_Z 0).

(** [a / n] for a float [a] and an integer [n] that is a length (so that
    its conversion to a float cannot overflow). *)
Definition truediv (a : float) (n : Z) : result float :=
  if (n =? 0)%Z then Raise ZeroDivisionError
  else Ok (a / float_of_Z n)%float.

(** *** Statements: local state that survives an exception *)

Definition M (S A : Type) : Type := S -> S * result A.

Definition ret {S A : Type} (a : A) : M S A := fun s => (s, Ok a).

Definition bindM {S A B : Type} (m : M S A) (k : A -> M S B) : M S B :=
  fun s =>
    match m s with
    | (s', Ok a) => k a s'
    | (s', Raise e) => (s', Raise e)
    end.

(** An expression evaluated for its value. *)
Definition eval {S A : Type} (r : result A) : M S A := fun s => (s, r).

(** A statement that updates the state and cannot raise. *)
Definition modify {S : Type} (f : S -> S) : M S unit := fun s => (f s, Ok tt).

(** [try: body / except Exception: handler]: the handler runs in the
    state the body reached when it raised. *)
Definition try_except {S A : Type} (body : M S A) (handler : exn -> M S A) : M S A :=
  fun s =>
    match body s with
    | (s', Ok a) => (s', Ok a)
    | (s', Raise e) => handler e s'
    end.

(** [for a in l: body(a)] *)
Fixpoint for_each {S A : Type} (l : list A) (body : A -> M S unit) : M S unit :=
  match l with
  | [] => ret tt
  | a :: l' => bindM (body a) (fun _ => for_each l' body)
  end.

(** A list comprehension whose element expression can raise. *)
Fixpoint comprehension {A B : Type} (f : A -> result B) (l : list A) : result (list B) :=
  match l with
  | [] => Ok []
  | a :: l' =>
      bind (f a) (fun b => bind (comprehension f l') (fun bs => Ok (b :: bs)))
  end.

End Py.

Declare Scope py_scope.
Delimit Scope py_scope with py.
Notation "x <- m ;; k" := (Py.bind m (fun x => k))
  (at level 61, m at next level, right associativity) : py_scope.
Notation "x <~ m ;; k" := (Py.bindM m (fun x => k))
  (at level 61, m at next level, right associativity) : py_scope.
Notation "m ;;; k" := (Py.bindM m (fun _ => k))
  (at level 61, right associativity) : py_scope.

Import Py.
Local Open Scope string_scope.
Local Open Scope py_scope.

(** ** The doodle generator: [generate_doodle], main.py lines 234-300 *)

Module Doodle.

(** [class DoodleRequest(BaseModel)] *)
Record DoodleRequest : Type := {
  text : option string;
  answers : dict string;
  metrics : dict pyval
}.

(** An entry of [library], and the fallback [{"type": "tag", "name": w}]. *)
Record element : Type := {
  type : string;
  name : string
}.

(** An entry of [canvas]: [{**el, "x": ..., "y": ..., "size": ...}]. *)
Record item : Type := {
  el : element;
  x : Z;
  y : Z;
  size : Z
}.

(** The value under ["doodle"] in the response. *)
Record doodle : Type := {
  palette : string;
  items : list item;
  keywords : list string
}.

(** [req.text or ""] *)
Definition text_or_empty (t : option string) : string :=
  match t with
  | Some s => s
  | None => ""
  end.

(** [" ".join([req.text or ""] + list(req.answers.values()))] *)
Definition content (req : DoodleRequest) : string :=
  join " " ([text_or_empty (text req)] ++ values (answers req)).

(** The character class [[a-zA-Z']]. *)
Definition is_word_char (c : ascii) : bool :=
  is_ascii_lower c || is_ascii_upper c || (code c =? 39)%nat.

(** [re.findall(r"[a-zA-Z']+", s)] *)
Definition findall_words (s : string) : list string :=
  runs is_word_char s.

Definition tokens (req : DoodleRequest) : list string :=
  findall_words (lower (content req)).

Definition stop : list string :=
  split "the a an and or but if to of for with on in at from by is are am was were be been being i me my we our you your they their it its this that these those".

(** [[t for t in tokens if t not in stop and len(t) > 2]] *)
Definition keep (t : string) : bool :=
  negb (str_in t stop) && (2 <? String.length t)%nat.

Definition words (req : DoodleRequest) : list string :=
  filter keep (tokens req).

(** [[w for w, _ in Counter(words).most_common(8)]] *)
Definition top_of (ws : list string) : list string :=
  map fst (most_common 8 (Counter ws)).

Definition top (req : DoodleRequest) : list string :=
  top_of (words req).

Definition library : dict element :=
  [ ("coffee", {| type := "element"; name := "coffee-cup" |});
    ("friend", {| type := "character"; name := "friend" |});
    ("friends", {| type := "character"; name := "friends" |});
    ("gym", {| type := "element"; name := "dumbbell" |});
    ("run", {| type := "element"; name := "running-shoe" |});
    ("walk", {| type := "element"; name := "footsteps" |});
    ("family", {| type := "character"; name := "family" |});
    ("work", {| type := "element"; name := "laptop" |});
    ("study", {| type := "element"; name := "book" |});
    ("dog", {| type := "character"; name := "dog" |});
    ("cat", {| type := "character"; name := "cat" |});
    ("movie", {| type := "element"; name := "film-reel" |});
    ("nature", {| type := "element"; name := "leaf" |});
    ("sleep", {| type := "element"; name := "moon" |});
    ("sun", {| type := "element"; name := "sun" |});
    ("beach", {| type := "element"; name := "wave" |});
    ("party", {| type := "element"; name := "balloons" |});
    ("cook", {| type := "element"; name := "chef-hat" |});
    ("bake", {| type := "element"; name := "cupcake" |});
    ("happy", {| type := "character"; name := "smiley" |});
    ("grateful", {| type := "element"; name := "sparkles" |}) ].

(** The body of [for w in top], lines 282-285: what is appended for [w]. *)
Definition element_for (w : string) : result element :=
  if contains library w then subscript library w
  else Ok {| type := "tag"; name := w |}.

Definition elements (tp : list string) : result (list element) :=
  comprehension element_for tp.

Definition cols : Z := 4.

(** The body of [for i, el in enumerate(elements)], lines 291-296. *)
Definition place (ie : nat * element) : item :=
  let (i, e) := ie in
  {| el := e;
     x := (Z.of_nat i mod cols) * 96 + 32;
     y := (Z.of_nat i / cols) * 96 + 32;
     size := 64 |}%Z.

Definition canvas (els : list element) : list item :=
  map place (enumerate els).

(** Line 298. *)
Definition palette_for (m : dict pyval) : string :=
  if in_strs (get_any m "mood") ["happy"; "grateful"; "excited"]
  then "sunset" else "midnight".

Definition generate_doodle (req : DoodleRequest) : result doodle :=
  let tp := top req in
  els <- elements tp ;;
  Ok {| palette := palette_for (metrics req);
        items := canvas els;
        keywords := tp |}.

End Doodle.

(** ** The insights aggregator: [insights_summary], main.py lines 322-343 *)

Module Insights.

(** A document of the [entry] collection, as far as the aggregation reads
    it: [e.get("mood")] and [e.get("metrics")], each possibly [None]. *)
Record entry : Type := {
  mood : option string;
  metrics : option (dict pyval)
}.

(** The local variables the loop updates. *)
Record locals : Type := {
  mood_counts : dict Z;
  metrics_acc : dict (list float)
}.

(** The returned dictionary: keys ["mood"], ["metrics_avg"], ["count"]. *)
Record summary : Type := {
  moodCounts : dict Z;
  metricAverages : dict pyval;
  count : Z
}.

(** [e.get("mood") or "unknown"]: [None] and the empty string are falsy. *)
Definition mood_or_unknown (m : option string) : string :=
  match m with
  | Some EmptyString => "unknown"
  | Some s => s
  | None => "unknown"
  end.

(** [e.get("metrics") or {}] *)
Definition metrics_or_empty (m : option (dict pyval)) : dict pyval :=
  match m with
  | Some d => d
  | None => []
  end.

(** Line 334: [mood_counts[m] = mood_counts.get(m, 0) + 1]. *)
Definition count_mood (m : string) : M locals unit :=
  modify (fun st =>
    {| mood_counts := set (mood_counts st) m (get_default (mood_counts st) m 0 + 1)%Z;
       metrics_acc := metrics_acc st |}).

(** [metrics_acc.setdefault(k, [])], the receiver of [.append] on line
    337: Python evaluates it before the argument [float(v)]. *)
Definition acc_setdefault (k : string) : M locals unit :=
  modify (fun st =>
    {| mood_counts := mood_counts st;
       metrics_acc := setdefault (metrics_acc st) k [] |}).

(** [.append(f)] on the list stored under [k]. *)
Definition acc_append (k : string) (f : float) : M locals unit :=
  modify (fun st =>
    {| mood_counts := mood_counts st;
       metrics_acc :=
         set (metrics_acc st) k (get_default (metrics_acc st) k [] ++ [f])%list |}).

(** Lines 336-339: the [try] statement for one pair of [metrics]. *)
Definition accumulate (kv : string * pyval) : M locals unit :=
  let (k, v) := kv in
  try_except
    (acc_setdefault k ;;;
     f <~ eval (py_float v) ;;
     acc_append k f)
    (fun _ => ret tt).

(** Lines 333-339: the body of [for e in items]. *)
Definition visit (e : entry) : M locals unit :=
  let m := lower (mood_or_unknown (mood e)) in
  count_mood m ;;;
  for_each (metrics_or_empty (metrics e)) accumulate.

(** The value of one key of [metrics_avg], line 340:
    [sum(v) / len(v) if v else 0]. *)
Definition average (kv : string * list float) : result (string * pyval) :=
  let (k, v) := kv in
  match v with
  | [] => Ok (k, PyInt 0)
  | _ => q <- truediv (py_sum v) (Z.of_nat (List.length v)) ;; Ok (k, PyFloat q)
  end.

Definition init : locals := {| mood_counts := []; metrics_acc := [] |}.

(** [items] is what [get_documents("entry", filt)] returned. The loop of
    lines 341-342 rewrites each document's ["_id"], which no returned value
    reads; it is left out. *)
Definition insights_summary (items : list entry) : result summary :=
  let (st, r) := for_each items visit init in
  _ <- r ;;
  metrics_avg <- comprehension average (metrics_acc st) ;;
  Ok {| moodCounts := mood_counts st;
        metricAverages := metrics_avg;
        count := Z.of_nat (List.length items) |}.

End Insights.

(** ** The daily affirmation: [daily_affirmation], main.py lines 303-319 *)

Module Affirmation.

Definition AFFIRMATIONS : list string :=
  [ "You are growing exactly at the pace you need.";
    "Small steps today create big shifts over time.";
    "Your feelings are valid and your voice matters.";
    "You have permission to rest and recalibrate.";
    "Progress, not perfection.";
    "You are resilient, creative, and kind to yourself.";
    "Your mind and body deserve gentle care today." ].

(** A [datetime.date]: its year lies between 1 and 9999, its month between
    1 and 12 and its day between 1 and 31. *)
Record date : Type := {
  year : nat;
  month : nat;
  day : nat
}.

(** The decimal digit of [n mod 10]. *)
Definition digit (n : nat) : ascii := ascii_of_nat (48 + n mod 10).

(** ["%0<width>d" % n] for [n < 10 ^ width], which holds of the fields of a
    date. *)
Fixpoint zero_padded (width n : nat) : string :=
  match width with
  | O => ""
  | S w => zero_padded w (n / 10) ++ String (digit n) ""
  end.

(** [d.isoformat()], that is ["%04d-%02d-%02d"]. *)
Definition isoformat (d : date) : string :=
  zero_padded 4 (year d) ++ "-" ++ zero_padded 2 (month d) ++ "-"
    ++ zero_padded 2 (day d).

(** [email or "anon"] *)
Definition email_or_anon (email : option string) : string :=
  match email with
  | Some EmptyString => "anon"
  | Some s => s
  | None => "anon"
  end.

(** [sum(ord(c) for c in s)] *)
Definition ord_sum (s : string) : Z :=
  fold_left (fun acc c => (acc + Z.of_nat (code c))%Z) (list_ascii_of_string s) 0%Z.

(** [l[i]] for a list: a negative index counts from the end, and [None]
    stands for the IndexError of an index out of range. *)
Definition item_at {A : Type} (l : list A) (i : Z) : option A :=
  let n := Z.of_nat (List.length l) in
  if (0 <=? i)%Z then nth_error l (Z.to_nat i)
  else if (- n <=? i)%Z then nth_error l (Z.to_nat (n + i))
  else None.

(** [today] is what [date.today()] returns when the request is served. *)
Definition daily_affirmation (today : date) (email : option string)
    (on : option date) : option string :=
  let seed_str :=
    email_or_anon email
      ++ (match on with
          | Some d => isoformat d
          | None => isoformat today
          end) in
  let idx := (ord_sum seed_str mod Z.of_nat (List.length AFFIRMATIONS))%Z in
  item_at AFFIRMATIONS idx.

End Affirmation.

(** ** The document filters of [list_entries], [list_todos] and
    [insights_summary], main.py lines 140-145, 192-196 and 325-327 *)

Module Queries.

(** What a filter asks of a field: a value, or a closed range
    [{"$gte": ..., "$lte": ...}]. *)
Inductive condition : Type :=
| Is_str (s : string)
| Is_date (d : Affirmation.date)
| Between (gte lte : Affirmation.date).

(** Lines 140-145: [if on: ... else: if start and end: ...]. *)
Definition entries_filter (email : string)
    (start end_ on : option Affirmation.date) : dict condition :=
  let filt := [("user_email", Is_str email)] in
  match on with
  | Some d => set filt "date" (Is_date d)
  | None =>
      match start, end_ with
      | Some s, Some e => set filt "date" (Between s e)
      | _, _ => filt
      end
  end.

(** Lines 192-196: [if on: ... elif start and end: ...]. *)
Definition todos_filter (email : string)
    (on start end_ : option Affirmation.date) : dict condition :=
  let filt := [("user_email", Is_str email)] in
  match on, start, end_ with
  | Some d, _, _ => set filt "date" (Is_date d)
  | None, Some s, Some e => set filt "date" (Between s e)
  | None, _, _ => filt
  end.

(** Lines 325-327. *)
Definition insights_filter (email : string)
    (start end_ : option Affirmation.date) : dict condition :=
  let filt := [("user_email", Is_str email)] in
  match start, end_ with
  | Some s, Some e => set filt "date" (Between s e)
  | _, _ => filt
  end.

End Queries.

(** ** Vocabulary of the statements *)

(** The position at which [w] is first seen in [l] (its length if never). *)
Fixpoint first_index (w : string) (l : list string) : nat :=
  match l with
  | [] => 0
  | a :: l' => if String.eqb a w then 0 else S (first_index w l')
  end.

(** How often [w] occurs in [l]. *)
Definition occurrences (l : list string) (w : string) : nat :=
  count_occ string_dec l w.

(** [a] is ranked before [b]: it occurs more often, or as often and is seen
    first. *)
Definition ranks_before (l : list string) (a b : string) : Prop :=
  (occurrences l b < occurrences l a)%nat \/
  (occurrences l a = occurrences l b /\ (first_index a l < first_index b l)%nat).

(** The same order on the items of a counter built from [l]. *)
Definition seen_before (l : list string) (a b : string * Z) : Prop :=
  (first_index (fst a) l < first_index (fst b) l)%nat.

Definition count_before (l : list string) (a b : string * Z) : Prop :=
  (snd b < snd a)%Z \/ (snd a = snd b /\ seen_before l a b).

(** What line 282-285 append for the keyword [w]: its entry of [library],
    or the tag that carries the keyword itself. *)
Definition element_of (w : string) : Doodle.element :=
  match get Doodle.library w with
  | Some e => e
  | None => {| Doodle.type := "tag"; Doodle.name := w |}
  end.

(** The characters of a string. *)
Definition chars (s : string) : list ascii := list_ascii_of_string s.

(** [sum(d.values())] for a dictionary of integers. *)
Definition sum_values (d : dict Z) : Z := fold_right Z.add 0%Z (values d).

(** The mood label the loop counts a document under, line 333. *)
Definition label (e : Insights.entry) : string :=
  lower (Insights.mood_or_unknown (Insights.mood e)).

(** The (key, value) pairs of the documents' metrics, in the order in which
    the loops of lines 332 and 335 visit them. *)
Definition all_pairs (items : list Insights.entry) : list (string * pyval) :=
  flat_map (fun e => Insights.metrics_or_empty (Insights.metrics e)) items.

(** Whether [k] is the key of one of [pairs]. *)
Definition mentions (k : string) (pairs : list (string * pyval)) : bool :=
  existsb (fun kv => String.eqb (fst kv) k) pairs.

(** The values under [k] that [float] accepts, each converted, in order. *)
Definition coerced (k : string) (pairs : list (string * pyval)) : list float :=
  flat_map
    (fun kv =>
       if String.eqb (fst kv) k then
         match py_float (snd kv) with
         | Ok f => [f]
         | Raise _ => []
         end
       else [])
    pairs.

(** The list under [k] once [pairs] have been visited, [old] being what
    [metrics_acc.get(k)] was before. *)
Definition extend (old : option (list float)) (k : string)
    (pairs : list (string * pyval)) : option (list float) :=
  if mentions k pairs then
    Some (match old with Some l => l | None => [] end ++ coerced k pairs)%list
  else old.

(** The value of [sum(v) / len(v) if v else 0]. *)
Definition average_of (v : list float) : pyval :=
  match v with
  | [] => PyInt 0
  | _ => PyFloat (py_sum v / float_of_Z (Z.of_nat (List.length v)))%float
  end.

(** The parts of the corpus: the text, then each answer. *)
Definition parts (req : Doodle.DoodleRequest) : list string :=
  Doodle.text_or_empty (Doodle.text req) :: values (Doodle.answers req).

(** The request with its text and answers put in lower case. *)
Definition lowered (req : Doodle.DoodleRequest) : Doodle.DoodleRequest :=
  {| Doodle.text := option_map lower (Doodle.text req);
     Doodle.answers := map (fun kv => (fst kv, lower (snd kv))) (Doodle.answers req);
     Doodle.metrics := Doodle.metrics req |}.

(** The request that carries the keywords alone as its text. *)
Definition from_keywords (ks : list string) (m : dict pyval) : Doodle.DoodleRequest :=
  {| Doodle.text := Some (join " " ks);
     Doodle.answers := [];
     Doodle.metrics := m |}.

(** The document with its mood put in lower case. *)
Definition lowered_mood (e : Insights.entry) : Insights.entry :=
  {| Insights.mood := option_map lower (Insights.mood e);
     Insights.metrics := Insights.metrics e |}.

(** [d.get(k, 0)] on the mood counts of a summary. *)
Definition mood_count (s : Insights.summary) (m : string) : Z :=
  get_default (Insights.moodCounts s) m 0%Z.

(** * Properties *)

(** ** Dictionaries and counters *)

Section DictFacts.

Variable V : Type.
Implicit Types (d : dict V) (k : string) (v : V).

Lemma get_set_same d k v : get (set d k v) k = Some v.
Proof.
  induction d as [|[k' v'] d IH]; simpl.
  - now rewrite String.eqb_refl.
  - destruct (String.eqb k' k) eqn:E; simpl; rewrite E; auto.
Qed.

Lemma get_set_other d k k' v : k <> k' -> get (set d k v) k' = get d k'.
Proof.
  intros Hne. induction d as [|[k0 v0] d IH]; simpl.
  - destruct (String.eqb_spec k k'); congruence.
  - destruct (String.eqb_spec k0 k) as [->|Hk]; simpl.
    + destruct (String.eqb_spec k k'); congruence.
    + now rewrite IH.
Qed.

Lemma get_set d k k' v :
  get (set d k v) k' = if String.eqb k k' then Some v else get d k'.
Proof.
  destruct (String.eqb_spec k k') as [->|Hne].
  - apply get_set_same.
  - now apply get_set_other.
Qed.

Lemma contains_In_keys d k : contains d k = true <-> In k (keys d).
Proof.
  unfold contains, keys. induction d as [|[k' v'] d IH]; simpl.
  - split; [discriminate | tauto].
  - destruct (String.eqb_spec k' k) as [->|Hne].
    + split; auto.
    + rewrite IH. split; [auto | intros [H|H]; [congruence | exact H]].
Qed.

Lemma get_None_keys d k : get d k = None <-> ~ In k (keys d).
Proof.
  rewrite <- contains_In_keys. unfold contains.
  destruct (get d k); split; congruence.
Qed.

Lemma keys_set d k v :
  keys (set d k v) = if contains d k then keys d else (keys d ++ [k])%list.
Proof.
  unfold contains, keys. induction d as [|[k' v'] d IH]; simpl; auto.
  destruct (String.eqb_spec k' k) as [->|Hne]; simpl; auto.
  rewrite IH. now destruct (get d k).
Qed.

Lemma In_get d k v : NoDup (keys d) -> In (k, v) d -> get d k = Some v.
Proof.
  unfold keys. induction d as [|[k' v'] d IH]; simpl; intros Hnd Hin; [tauto|].
  inversion Hnd as [|? ? Hnotin Hnd']; subst.
  destruct Hin as [Heq|Hin].
  - inversion Heq; subst. now rewrite String.eqb_refl.
  - destruct (String.eqb_spec k' k) as [->|Hne]; auto.
    exfalso. apply Hnotin. change k with (fst (k, v)). now apply in_map.
Qed.

Lemma get_In d k v : get d k = Some v -> In (k, v) d.
Proof.
  induction d as [|[k' v'] d IH]; simpl; [discriminate|].
  destruct (String.eqb_spec k' k) as [->|Hne]; intros H.
  - left. congruence.
  - right. auto.
Qed.

End DictFacts.

(** ** Sorted lists *)

Section SortedFacts.

Variable A : Type.
Implicit Types (R : A -> A -> Prop) (l : list A).

Lemma StronglySorted_impl_In R R' l :
  (forall a b, In a l -> In b l -> R a b -> R' a b) ->
  StronglySorted R l -> StronglySorted R' l.
Proof.
  induction l as [|x l IH]; intros Himp Hs; constructor;
    inversion Hs as [|? ? Hs' Hall]; subst.
  - apply IH; [intros a b Ha Hb; apply Himp; now right | assumption].
  - rewrite Forall_forall in *. intros b Hb.
    apply Himp; [now left | now right | auto].
Qed.

Lemma StronglySorted_snoc R l x :
  StronglySorted R l -> Forall (fun a => R a x) l -> StronglySorted R (l ++ [x]).
Proof.
  induction l as [|y l IH]; simpl; intros Hs Hall.
  - repeat constructor.
  - inversion Hs as [|? ? Hs' Hy]; subst.
    inversion Hall as [|? ? Hyx Hall']; subst.
    constructor; auto.
    apply Forall_app. split; auto.
Qed.

Lemma StronglySorted_app_inv R l1 l2 :
  StronglySorted R (l1 ++ l2) ->
  StronglySorted R l1 /\ forall a b, In a l1 -> In b l2 -> R a b.
Proof.
  induction l1 as [|x l1 IH]; simpl; intros Hs.
  - split; [constructor | intros ? ? []].
  - inversion Hs as [|? ? Hs' Hx]; subst.
    destruct (IH Hs') as [Hs1 Hcross].
    apply Forall_app in Hx. destruct Hx as [Hx1 Hx2].
    split; [now constructor|].
    intros a b [->|Ha] Hb; auto.
    rewrite Forall_forall in Hx2. auto.
Qed.

Lemma StronglySorted_nth_error R l i j a b :
  StronglySorted R l -> (i < j)%nat ->
  nth_error l i = Some a -> nth_error l j = Some b -> R a b.
Proof.
  intros Hs. revert i j. induction Hs as [|x l Hs IH Hx]; intros i j Hij Hi Hj.
  - destruct i; discriminate.
  - destruct j as [|j]; [lia|]. simpl in Hj.
    destruct i as [|i]; simpl in Hi.
    + inversion Hi; subst. rewrite Forall_forall in Hx.
      apply Hx. eapply nth_error_In; eauto.
    + apply (IH i j); auto. lia.
Qed.

Lemma StronglySorted_irrefl_NoDup R l :
  (forall a, ~ R a a) -> StronglySorted R l -> NoDup l.
Proof.
  intros Hirr Hs. induction Hs as [|x l Hs IH Hx]; constructor; auto.
  intros Hin. rewrite Forall_forall in Hx. apply (Hirr x). auto.
Qed.

End SortedFacts.

Lemma StronglySorted_map_inv (A B : Type) (f : A -> B) (R : B -> B -> Prop) (l : list A) :
  StronglySorted R (map f l) -> StronglySorted (fun a b => R (f a) (f b)) l.
Proof.
  induction l as [|x l IH]; simpl; intros Hs; constructor;
    inversion Hs as [|? ? Hs' Hx]; subst; auto.
  rewrite Forall_forall in *. intros a Ha. apply Hx. now apply in_map.
Qed.

Lemma StronglySorted_map (A B : Type) (f : A -> B) (R : A -> A -> Prop)
    (R' : B -> B -> Prop) (l : list A) :
  (forall a b, In a l -> In b l -> R a b -> R' (f a) (f b)) ->
  StronglySorted R l -> StronglySorted R' (map f l).
Proof.
  induction l as [|x l IH]; simpl; intros Himp Hs; constructor;
    inversion Hs as [|? ? Hs' Hx]; subst.
  - apply IH; [intros a b Ha Hb; apply Himp; now right | assumption].
  - rewrite Forall_forall in *. intros b Hb.
    apply in_map_iff in Hb. destruct Hb as (a & <- & Ha).
    apply Himp; [now left | now right | auto].
Qed.

Lemma In_firstn (A : Type) (x : A) n l : In x (firstn n l) -> In x l.
Proof.
  intros H. rewrite <- (firstn_skipn n l). apply in_or_app. now left.
Qed.

Lemma In_skipn (A : Type) (x : A) n l : In x (skipn n l) -> In x l.
Proof.
  intros H. rewrite <- (firstn_skipn n l). apply in_or_app. now right.
Qed.

(** ** First occurrences and counts *)

Lemma first_index_app_In w l l' :
  In w l -> first_index w (l ++ l') = first_index w l.
Proof.
  induction l as [|a l IH]; simpl; [tauto|].
  intros Hin. destruct (String.eqb_spec a w) as [->|Hne]; auto.
  destruct Hin; [congruence|]. f_equal. auto.
Qed.

Lemma first_index_lt_length w l :
  In w l -> (first_index w l < List.length l)%nat.
Proof.
  induction l as [|a l IH]; simpl; [tauto|].
  intros Hin. destruct (String.eqb_spec a w) as [->|Hne]; [lia|].
  destruct Hin; [congruence|]. apply IH in H. lia.
Qed.

Lemma first_index_fresh w l :
  ~ In w l -> first_index w (l ++ [w]) = List.length l.
Proof.
  induction l as [|a l IH]; simpl; intros Hnin.
  - now rewrite String.eqb_refl.
  - destruct (String.eqb_spec a w) as [->|Hne]; [tauto|].
    f_equal. apply IH. tauto.
Qed.

Lemma occurrences_snoc l w k :
  occurrences (l ++ [w]) k =
  (occurrences l k + if String.eqb w k then 1 else 0)%nat.
Proof.
  unfold occurrences. rewrite count_occ_app. simpl.
  destruct (string_dec w k), (String.eqb_spec w k); congruence.
Qed.

Lemma occurrences_pos l w : In w l <-> (0 < occurrences l w)%nat.
Proof. apply count_occ_In. Qed.

(** ** [Counter] *)

Lemma Counter_snoc ws w : Counter (ws ++ [w]) = count_elem (Counter ws) w.
Proof. unfold Counter. now rewrite fold_left_app. Qed.

Lemma Counter_get ws k :
  get (Counter ws) k =
  if (occurrences ws k =? 0)%nat then None else Some (Z.of_nat (occurrences ws k)).
Proof.
  induction ws as [|w ws IH] using rev_ind; [reflexivity|].
  rewrite Counter_snoc, occurrences_snoc. unfold count_elem.
  rewrite get_set. destruct (String.eqb_spec w k) as [->|Hne].
  - unfold get_default. rewrite IH.
    destruct (Nat.eqb_spec (occurrences ws k + 1) 0) as [E1|_]; [lia|].
    destruct (Nat.eqb_spec (occurrences ws k) 0) as [E|E]; simpl; f_equal; lia.
  - now rewrite IH, Nat.add_0_r.
Qed.

Lemma Counter_keys_In ws k : In k (keys (Counter ws)) <-> In k ws.
Proof.
  rewrite (occurrences_pos ws k). split.
  - intros Hin. destruct (Nat.eq_dec (occurrences ws k) 0) as [E|E]; [|lia].
    exfalso. revert Hin. apply get_None_keys.
    rewrite Counter_get, E. reflexivity.
  - intros Hpos. destruct (in_dec string_dec k (keys (Counter ws))) as [H|H]; auto.
    apply get_None_keys in H. rewrite Counter_get in H.
    destruct (Nat.eqb_spec (occurrences ws k) 0); [lia | discriminate].
Qed.

Lemma Counter_keys_sorted ws :
  StronglySorted (fun a b => (first_index a ws < first_index b ws)%nat)
                 (keys (Counter ws)).
Proof.
  induction ws as [|w ws IH] using rev_ind; [constructor|].
  rewrite Counter_snoc. unfold count_elem. rewrite keys_set.
  destruct (contains (Counter ws) w) eqn:Hc.
  - eapply StronglySorted_impl_In; [|exact IH].
    intros a b Ha Hb.
      apply -> Counter_keys_In in Ha. apply -> Counter_keys_In in Hb.
    now rewrite !first_index_app_In.
  - assert (Hnin : ~ In w ws).
    { rewrite <- Counter_keys_In, <- contains_In_keys. congruence. }
    apply StronglySorted_snoc.
    + eapply StronglySorted_impl_In; [|exact IH].
      intros a b Ha Hb.
      apply -> Counter_keys_In in Ha. apply -> Counter_keys_In in Hb.
      now rewrite !first_index_app_In.
    + apply Forall_forall. intros a Ha. apply -> Counter_keys_In in Ha.
      rewrite first_index_app_In, first_index_fresh; auto.
      now apply first_index_lt_length.
Qed.

Lemma Counter_keys_NoDup ws : NoDup (keys (Counter ws)).
Proof.
  eapply StronglySorted_irrefl_NoDup; [|apply Counter_keys_sorted].
  intros a. simpl. lia.
Qed.

Lemma Counter_items ws k n :
  In (k, n) (Counter ws) -> In k ws /\ n = Z.of_nat (occurrences ws k).
Proof.
  intros Hin.
  assert (Hk : In k ws).
  { apply -> Counter_keys_In. change k with (fst (k, n)). now apply in_map. }
  split; auto.
  apply In_get in Hin; [|apply Counter_keys_NoDup].
  rewrite Counter_get in Hin. apply occurrences_pos in Hk.
  destruct (Nat.eqb_spec (occurrences ws k) 0); [lia | congruence].
Qed.

(** ** The stable sort behind [most_common] *)

Lemma insert_desc_perm it l : Permutation (it :: l) (insert_desc it l).
Proof.
  induction l as [|it' l IH]; simpl; auto.
  destruct (snd it <? snd it')%Z; auto.
  rewrite perm_swap. now constructor.
Qed.

Lemma sorted_desc_perm l : Permutation l (sorted_desc l).
Proof.
  induction l as [|it l IH]; simpl; auto.
  rewrite <- insert_desc_perm. now constructor.
Qed.

Lemma count_before_le ws a b : count_before ws a b -> (snd b <= snd a)%Z.
Proof. unfold count_before. lia. Qed.

Lemma insert_desc_sorted ws it l :
  StronglySorted (count_before ws) l ->
  Forall (seen_before ws it) l ->
  StronglySorted (count_before ws) (insert_desc it l).
Proof.
  intros Hs Hseen. induction Hs as [|it' l Hs IH Hit']; simpl.
  - repeat constructor.
  - inversion Hseen as [|? ? Hfirst Hrest]; subst.
    destruct (Z.ltb_spec (snd it) (snd it')) as [Hlt|Hge].
    + constructor; auto.
      eapply Permutation_Forall; [apply insert_desc_perm|].
      constructor; auto. now left.
    + constructor; [now constructor|].
      rewrite Forall_forall in *. intros z Hz.
      assert (Hle : (snd z <= snd it')%Z).
      { destruct Hz as [<-|Hz]; [lia|]. apply count_before_le with ws. auto. }
      assert (Hsz : seen_before ws it z).
      { destruct Hz as [<-|Hz]; auto. }
      unfold count_before. destruct (Z.eq_dec (snd it) (snd z)); [right | left]; auto.
      lia.
Qed.

Lemma sorted_desc_sorted ws l :
  StronglySorted (seen_before ws) l ->
  StronglySorted (count_before ws) (sorted_desc l).
Proof.
  induction 1 as [|it l Hs IH Hit]; simpl; [constructor|].
  apply insert_desc_sorted; auto.
  eapply Permutation_Forall; [apply sorted_desc_perm | exact Hit].
Qed.

(** ** The ranking of lines 250-253 *)

Section Ranking.

Variable ws : list string.

Let sorted_items : list (string * Z) := sorted_desc (Counter ws).

Lemma sorted_items_In it : In it sorted_items <-> In it (Counter ws).
Proof.
  split; apply Permutation_in;
    [apply Permutation_sym |]; apply sorted_desc_perm.
Qed.

Lemma sorted_items_sorted : StronglySorted (count_before ws) sorted_items.
Proof.
  apply sorted_desc_sorted.
  apply (@StronglySorted_map_inv _ _ fst
           (fun a b => (first_index a ws < first_index b ws)%nat)).
  apply Counter_keys_sorted.
Qed.

Lemma sorted_items_NoDup : NoDup (map fst sorted_items).
Proof.
  eapply Permutation_NoDup; [|apply (Counter_keys_NoDup ws)].
  apply Permutation_map, sorted_desc_perm.
Qed.

Lemma count_before_ranks a b :
  In a sorted_items -> In b sorted_items ->
  count_before ws a b -> ranks_before ws (fst a) (fst b).
Proof.
  destruct a as [ka na], b as [kb nb]. intros Ha Hb.
  apply sorted_items_In, Counter_items in Ha.
  apply sorted_items_In, Counter_items in Hb.
  destruct Ha as [_ ->], Hb as [_ ->].
  unfold count_before, ranks_before, seen_before. simpl. lia.
Qed.

Lemma top_of_firstn : Doodle.top_of ws = firstn 8 (map fst sorted_items).
Proof. unfold Doodle.top_of, most_common. now rewrite firstn_map. Qed.

Lemma top_of_split :
  map fst sorted_items = (Doodle.top_of ws ++ map fst (skipn 8 sorted_items))%list.
Proof.
  unfold Doodle.top_of, most_common. fold sorted_items.
  now rewrite <- map_app, firstn_skipn.
Qed.

Lemma top_of_length : (List.length (Doodle.top_of ws) <= 8)%nat.
Proof. rewrite top_of_firstn. apply firstn_le_length. Qed.

Lemma top_of_NoDup : NoDup (Doodle.top_of ws).
Proof.
  pose proof sorted_items_NoDup as H. rewrite top_of_split in H.
  now apply NoDup_app_remove_r in H.
Qed.

Lemma top_of_In k : In k (Doodle.top_of ws) -> In k ws.
Proof.
  intros Hin.
  assert (H : In k (map fst sorted_items)).
  { rewrite top_of_split. apply in_or_app. now left. }
  apply in_map_iff in H. destruct H as ([k' n] & <- & H).
  apply sorted_items_In, Counter_items in H. tauto.
Qed.

Lemma top_of_all w :
  (List.length (Doodle.top_of ws) < 8)%nat -> In w ws -> In w (Doodle.top_of ws).
Proof.
  intros Hlen Hin. rewrite top_of_firstn in *.
  rewrite firstn_all2.
  - apply Counter_keys_In in Hin. unfold keys in Hin.
    eapply Permutation_in; [|exact Hin].
    apply Permutation_map, sorted_desc_perm.
  - rewrite length_firstn in Hlen. lia.
Qed.

Lemma top_of_sorted : StronglySorted (ranks_before ws) (Doodle.top_of ws).
Proof.
  pose proof sorted_items_sorted as Hs.
  rewrite <- (firstn_skipn 8 sorted_items) in Hs.
  apply StronglySorted_app_inv in Hs. destruct Hs as [Hs _].
  unfold Doodle.top_of, most_common. fold sorted_items.
  eapply StronglySorted_map; [|exact Hs].
  intros a b Ha Hb. apply count_before_ranks; eapply In_firstn; eauto.
Qed.

Lemma top_of_highest w k :
  In w ws -> ~ In w (Doodle.top_of ws) -> In k (Doodle.top_of ws) -> ranks_before ws k w.
Proof.
  intros Hw Hnot Hk.
  pose proof sorted_items_sorted as Hs.
  rewrite <- (firstn_skipn 8 sorted_items) in Hs.
  apply StronglySorted_app_inv in Hs. destruct Hs as [_ Hcross].
  unfold Doodle.top_of, most_common in Hk, Hnot. fold sorted_items in Hk, Hnot.
  apply in_map_iff in Hk. destruct Hk as (a & <- & Ha).
  apply Counter_keys_In in Hw. unfold keys in Hw.
  apply in_map_iff in Hw. destruct Hw as (b & <- & Hb).
  apply sorted_items_In in Hb.
  assert (Hb' : In b (skipn 8 sorted_items)).
  { rewrite <- (firstn_skipn 8 sorted_items) in Hb.
    apply in_app_or in Hb. destruct Hb as [Hb|Hb]; auto.
    exfalso. apply Hnot. now apply in_map. }
  apply count_before_ranks; eauto using In_firstn, In_skipn.
Qed.

End Ranking.

Lemma occurrences_filter (f : string -> bool) l w :
  f w = true -> occurrences (filter f l) w = occurrences l w.
Proof.
  intros Hw. unfold occurrences. induction l as [|x l IH]; simpl; auto.
  destruct (f x) eqn:Hx; simpl.
  - now rewrite IH.
  - destruct (string_dec x w); [congruence | auto].
Qed.

Lemma first_index_filter (f : string -> bool) l a b :
  f a = true -> f b = true -> In a l ->
  (first_index a (filter f l) < first_index b (filter f l))%nat <->
  (first_index a l < first_index b l)%nat.
Proof.
  intros Ha Hb. induction l as [|x l IH]; simpl; [tauto|]. intros Hin.
  destruct (String.eqb_spec x a) as [->|Hxa].
  - rewrite Ha. simpl. rewrite String.eqb_refl.
    destruct (String.eqb_spec a b); lia.
  - destruct Hin as [?|Hin]; [congruence|].
    destruct (String.eqb_spec x b) as [->|Hxb].
    + rewrite Hb. simpl. rewrite String.eqb_refl.
      destruct (String.eqb_spec b a); [congruence | lia].
    + specialize (IH Hin). destruct (f x); simpl.
      * destruct (String.eqb_spec x a), (String.eqb_spec x b); try congruence.
        lia.
      * lia.
Qed.

Lemma ranks_before_filter (f : string -> bool) l a b :
  f a = true -> f b = true -> In a l ->
  ranks_before (filter f l) a b <-> ranks_before l a b.
Proof.
  intros Ha Hb Hin. unfold ranks_before.
  rewrite !occurrences_filter by assumption.
  now rewrite first_index_filter.
Qed.

(** ** Tokens *)

Lemma chars_app s1 s2 c :
  In c (chars (s1 ++ s2)) <-> In c (chars s1) \/ In c (chars s2).
Proof.
  unfold chars. induction s1 as [|c1 s1 IH]; simpl; [tauto|].
  rewrite IH. tauto.
Qed.

Lemma chars_lower s c : In c (chars (lower s)) -> exists c0, c = lower_char c0.
Proof.
  unfold chars. induction s as [|c1 s IH]; simpl; [tauto|].
  intros [<-|H]; eauto.
Qed.

(** Every character of a run satisfies the class and is read from the
    input or from the run under way. *)
Lemma runs_from_chars (p : ascii -> bool) (Q : ascii -> Prop) s :
  forall cur,
    (forall c, In c (chars cur) -> Q c) ->
    (forall c, In c (chars s) -> p c = true -> Q c) ->
    forall t, In t (runs_from p cur s) -> forall c, In c (chars t) -> Q c.
Proof.
  induction s as [|c1 s IH]; simpl; intros cur Hcur Hs t Ht c Hc.
  - destruct cur; simpl in Ht; [tauto|].
    destruct Ht as [<-|[]]. auto.
  - destruct (p c1) eqn:Hp.
    + apply (IH (cur ++ String c1 EmptyString)%string) with (t := t); auto.
      intros c' Hc'. apply chars_app in Hc'. destruct Hc' as [Hc'|Hc']; auto.
      simpl in Hc'. destruct Hc' as [<-|[]]. apply Hs; auto.
    + apply in_app_or in Ht. destruct Ht as [Ht|Ht].
      * destruct cur; simpl in Ht; [tauto|]. destruct Ht as [<-|[]]. auto.
      * apply (IH EmptyString) with (t := t); auto.
        intros c' [].
Qed.

Lemma word_char_lower c0 :
  Doodle.is_word_char (lower_char c0) = true ->
  is_ascii_lower (lower_char c0) = true \/ lower_char c0 = "'"%char.
Proof.
  destruct c0 as [[] [] [] [] [] [] [] []]; vm_compute; intros H;
    first [discriminate H | now left | now right].
Qed.

Lemma tokens_chars req t c :
  In t (Doodle.tokens req) -> In c (chars t) ->
  is_ascii_lower c = true \/ c = "'"%char.
Proof.
  unfold Doodle.tokens, Doodle.findall_words, runs. intros Ht Hc.
  revert t Ht c Hc. apply runs_from_chars.
  - intros c [].
  - intros c Hc Hp. apply chars_lower in Hc. destruct Hc as [c0 ->].
    now apply word_char_lower.
Qed.

Lemma keep_spec t :
  Doodle.keep t = true <->
  ~ In t Doodle.stop /\ (2 < String.length t)%nat.
Proof.
  unfold Doodle.keep, str_in.
  rewrite andb_true_iff, negb_true_iff, Nat.ltb_lt.
  split; intros [H1 H2]; split; auto.
  - intros Hin. rewrite <- not_true_iff_false in H1. apply H1.
    apply existsb_exists. exists t. split; auto. apply String.eqb_refl.
  - apply not_true_iff_false. intros H. apply existsb_exists in H.
    destruct H as (x & Hx & E). apply String.eqb_eq in E. now subst.
Qed.

(** ** The shape of the response *)

Lemma elements_ok tp : Doodle.elements tp = Ok (map element_of tp).
Proof.
  unfold Doodle.elements. induction tp as [|w tp IH]; simpl; auto.
  rewrite IH. unfold Doodle.element_for, element_of, contains, subscript.
  now destruct (get Doodle.library w).
Qed.

Lemma generate_doodle_eq req :
  Doodle.generate_doodle req =
  Ok {| Doodle.palette := Doodle.palette_for (Doodle.metrics req);
        Doodle.items := Doodle.canvas (map element_of (Doodle.top req));
        Doodle.keywords := Doodle.top req |}.
Proof. unfold Doodle.generate_doodle. now rewrite elements_ok. Qed.

Lemma nth_error_enumerate_from (A : Type) (l : list A) : forall s i,
  nth_error (enumerate_from s l) i =
  option_map (fun a => ((s + i)%nat, a)) (nth_error l i).
Proof.
  induction l as [|a l IH]; intros s i; destruct i; simpl; auto.
  - now rewrite Nat.add_0_r.
  - rewrite IH. now rewrite Nat.add_succ_r.
Qed.

Lemma nth_error_canvas els i :
  nth_error (Doodle.canvas els) i =
  option_map (fun e => Doodle.place (i, e)) (nth_error els i).
Proof.
  unfold Doodle.canvas, enumerate.
  rewrite nth_error_map, nth_error_enumerate_from.
  now destruct (nth_error els i).
Qed.

Lemma canvas_length els : List.length (Doodle.canvas els) = List.length els.
Proof.
  unfold Doodle.canvas, enumerate. rewrite length_map.
  generalize 0%nat. induction els; simpl; auto.
Qed.

Lemma palette_for_sunset m :
  Doodle.palette_for m = "sunset" <->
  exists s, get m "mood" = Some (PyStr s) /\
            (s = "happy" \/ s = "grateful" \/ s = "excited").
Proof.
  unfold Doodle.palette_for, get_any, get_default, in_strs.
  destruct (get m "mood") as [v|]; [destruct v|]; simpl;
    try (split; [discriminate | intros (s & Hs & _); discriminate]).
  destruct (String.eqb_spec s "happy") as [->|H1];
    [split; eauto|].
  destruct (String.eqb_spec s "grateful") as [->|H2];
    [split; eauto|].
  destruct (String.eqb_spec s "excited") as [->|H3];
    [split; eauto 6|].
  simpl. split; [discriminate|].
  intros (s' & Hs & Hcase). inversion Hs; subst. tauto.
Qed.

Lemma palette_for_cases m :
  Doodle.palette_for m = "sunset" \/ Doodle.palette_for m = "midnight".
Proof. unfold Doodle.palette_for. destruct (in_strs _ _); auto. Qed.

Lemma palette_for_get m m' :
  get m' "mood" = get m "mood" -> Doodle.palette_for m' = Doodle.palette_for m.
Proof.
  intros H. unfold Doodle.palette_for, get_any, get_default. now rewrite H.
Qed.

(** * The claims about [generate_doodle] *)

Section DoodleClaims.

Import Doodle.

(** C1. For every request the keywords are the surviving tokens that occur
    most often in the corpus, eight at most: every keyword is a surviving
    token; keywords come in decreasing order of count, and among equal
    counts in the order in which they are first seen; a surviving token
    that is not a keyword is ranked after every keyword; and with fewer
    than eight keywords every surviving token is one. For the corpus
    "coffee coffee coffee friend friend gym" the keywords are coffee,
    friend, gym and item 0 is the element coffee-cup at x = 32, y = 32 with
    size 64. *)
Theorem C1_keywords_most_common :
  forall req, exists d,
    generate_doodle req = Ok d
    /\ (List.length (keywords d) <= 8)%nat
    /\ (forall k, In k (keywords d) -> In k (tokens req) /\ keep k = true)
    /\ (forall i j a b,
          (i < j)%nat ->
          nth_error (keywords d) i = Some a ->
          nth_error (keywords d) j = Some b ->
          ranks_before (tokens req) a b)
    /\ (forall w k,
          In w (tokens req) -> keep w = true -> ~ In w (keywords d) ->
          In k (keywords d) -> ranks_before (tokens req) k w)
    /\ ((List.length (keywords d) < 8)%nat ->
        forall w, In w (tokens req) -> keep w = true -> In w (keywords d))
    /\ (content req = "coffee coffee coffee friend friend gym" ->
        keywords d = ["coffee"; "friend"; "gym"]
        /\ nth_error (items d) 0 =
           Some {| el := {| type := "element"; name := "coffee-cup" |};
                   x := 32; y := 32; size := 64 |}).
Proof.
  intros req. eexists. split; [apply generate_doodle_eq|]. simpl.
  assert (Hsurv : forall k, In k (top req) -> In k (tokens req) /\ keep k = true).
  { intros k Hk. apply top_of_In in Hk. now apply filter_In in Hk. }
  repeat split.
  - apply top_of_length.
  - now apply Hsurv.
  - now apply Hsurv.
  - intros i j a b Hij Ha Hb.
    destruct (Hsurv a (nth_error_In _ _ Ha)) as [Hta Hka].
    destruct (Hsurv b (nth_error_In _ _ Hb)) as [Htb Hkb].
    apply (ranks_before_filter keep (tokens req)); auto.
    eapply StronglySorted_nth_error; eauto. apply top_of_sorted.
  - intros w k Hw Hkw Hnot Hk.
    destruct (Hsurv k Hk) as [Htk Hkk].
    apply (ranks_before_filter keep (tokens req)); auto.
    apply top_of_highest; auto. apply filter_In. now split.
  - intros Hlen w Hw Hkw. apply top_of_all; auto. apply filter_In. now split.
  - unfold top, words, tokens. rewrite H. reflexivity.
  - unfold top, words, tokens. rewrite H. reflexivity.
Qed.

(** C3. For every request the keywords are at most 8 and there are as
    many items as keywords. *)
Theorem C3_keywords_items_length :
  forall req, exists d,
    generate_doodle req = Ok d
    /\ (List.length (keywords d) <= 8)%nat
    /\ List.length (items d) = List.length (keywords d).
Proof.
  intros req. eexists. split; [apply generate_doodle_eq|]. simpl. split.
  - apply top_of_length.
  - now rewrite canvas_length, length_map.
Qed.

(** C5. For every request the palette is "sunset" exactly when the
    metrics hold under "mood" a string equal to "happy", "grateful" or
    "excited", and "midnight" otherwise, an absent key included; any
    request with the same value under "mood" gets the same palette. *)
Theorem C5_palette_from_mood :
  forall req, exists d,
    generate_doodle req = Ok d
    /\ (palette d = "sunset" <->
        exists s, get (metrics req) "mood" = Some (PyStr s) /\
                  (s = "happy" \/ s = "grateful" \/ s = "excited"))
    /\ (palette d = "midnight" <-> palette d <> "sunset")
    /\ (get (metrics req) "mood" = None -> palette d = "midnight")
    /\ (forall req',
          get (metrics req') "mood" = get (metrics req) "mood" ->
          exists d', generate_doodle req' = Ok d' /\ palette d' = palette d).
Proof.
  intros req. eexists. split; [apply generate_doodle_eq|]. simpl.
  split; [apply palette_for_sunset|]. split; [|split].
  - destruct (palette_for_cases (metrics req)) as [E|E]; rewrite E;
      split; congruence.
  - intros Hnone. destruct (palette_for_cases (metrics req)) as [E|E]; auto.
    apply palette_for_sunset in E. destruct E as (s & Hs & _). congruence.
  - intros req' Hsame. eexists. split; [apply generate_doodle_eq|]. simpl.
    now apply palette_for_get.
Qed.

(** C7, as the code has it. For every request every keyword is made of
    lowercase ASCII letters and apostrophes, is longer than 2 and is not a
    stop word; the corpus "I am ok at it" yields no keyword. *)
Theorem C7_keywords_are_tokens :
  forall req, exists d,
    generate_doodle req = Ok d
    /\ (forall k, In k (keywords d) ->
          (forall c, In c (chars k) -> is_ascii_lower c = true \/ c = "'"%char)
          /\ (2 < String.length k)%nat
          /\ ~ In k stop)
    /\ (content req = "I am ok at it" -> keywords d = []).
Proof.
  intros req. eexists. split; [apply generate_doodle_eq|]. simpl. split.
  - intros k Hk. apply top_of_In, filter_In in Hk. destruct Hk as [Ht Hkeep].
    apply keep_spec in Hkeep. destruct Hkeep as [Hstop Hlen].
    repeat split; auto.
    intros c Hc. eapply tokens_chars; eauto.
  - intros H. unfold top, words, tokens. rewrite H. reflexivity.
Qed.

(** C7 as stated fails: the corpus "don't" yields the keyword "don't",
    which is not alphabetic. *)
Lemma C7_counterexample :
  ~ (forall req d k,
       generate_doodle req = Ok d -> In k (keywords d) ->
       (forall c, In c (chars k) -> is_ascii_lower c = true)
       /\ (2 < String.length k)%nat
       /\ ~ In k stop).
Proof.
  intros H.
  destruct (H {| text := Some "don't"; answers := []; metrics := [] |}
              {| palette := "midnight";
                 items := [ {| el := {| type := "tag"; name := "don't" |};
                               x := 32; y := 32; size := 64 |} ];
                 keywords := ["don't"] |}
              "don't" eq_refl (or_introl eq_refl)) as [Halpha _].
  specialize (Halpha "'"%char). simpl in Halpha.
  assert (E : is_ascii_lower "'"%char = true) by (apply Halpha; tauto).
  discriminate E.
Qed.

(** C8. For every request, item [i] is placed at
    x = (i mod 4) * 96 + 32 and y = (i / 4) * 96 + 32 with size 64. *)
Theorem C8_grid_layout :
  forall req, exists d,
    generate_doodle req = Ok d
    /\ forall i it,
         nth_error (items d) i = Some it ->
         (x it = (Z.of_nat i mod 4) * 96 + 32
          /\ y it = (Z.of_nat i / 4) * 96 + 32
          /\ size it = 64)%Z.
Proof.
  intros req. eexists. split; [apply generate_doodle_eq|]. simpl.
  intros i it Hit. rewrite nth_error_canvas in Hit.
  destruct (nth_error (map element_of (top req)) i); simpl in Hit; [|discriminate].
  inversion Hit; subst. simpl. auto.
Qed.

(** C10. For every request the keywords are pairwise distinct, and item
    [i] is built from keyword [i]: it carries the library entry of that
    keyword, or the tag named after it when the library has none. *)
Theorem C10_keywords_distinct :
  forall req, exists d,
    generate_doodle req = Ok d
    /\ NoDup (keywords d)
    /\ List.length (items d) = List.length (keywords d)
    /\ forall i w,
         nth_error (keywords d) i = Some w ->
         exists it,
           nth_error (items d) i = Some it
           /\ (get library w = Some (el it)
               \/ (get library w = None
                   /\ el it = {| type := "tag"; name := w |})).
Proof.
  intros req. eexists. split; [apply generate_doodle_eq|].
  cbn [keywords items].
  split; [apply top_of_NoDup|]. split.
  - now rewrite canvas_length, length_map.
  - intros i w Hw. rewrite nth_error_canvas, nth_error_map, Hw.
    cbn [option_map]. eexists. split; [reflexivity|].
    unfold place. cbn [el]. unfold element_of.
    destruct (get library w) as [e|]; [left | right]; auto.
Qed.

End DoodleClaims.

(** * The aggregation loop *)

Lemma sum_values_set d k :
  sum_values (set d k (get_default d k 0 + 1)%Z) = (sum_values d + 1)%Z.
Proof.
  unfold sum_values, values, get_default.
  induction d as [|[k' n] d IH]; simpl; [lia|].
  destruct (String.eqb_spec k' k) as [->|Hne]; simpl; [lia|].
  rewrite IH. lia.
Qed.

Lemma coerced_app k p1 p2 : coerced k (p1 ++ p2) = (coerced k p1 ++ coerced k p2)%list.
Proof. apply flat_map_app. Qed.

Lemma mentions_app k p1 p2 : mentions k (p1 ++ p2) = mentions k p1 || mentions k p2.
Proof. apply existsb_app. Qed.

Lemma coerced_unmentioned k p : mentions k p = false -> coerced k p = [].
Proof.
  unfold mentions, coerced. induction p as [|kv p IH]; simpl; auto.
  destruct (String.eqb (fst kv) k); simpl; [discriminate | auto].
Qed.

Lemma extend_app old k p1 p2 :
  extend (extend old k p1) k p2 = extend old k (p1 ++ p2).
Proof.
  unfold extend. rewrite mentions_app, coerced_app.
  destruct (mentions k p1) eqn:E1, (mentions k p2) eqn:E2; simpl; auto.
  - now rewrite app_assoc.
  - now rewrite (coerced_unmentioned _ _ E2), app_nil_r.
  - now rewrite (coerced_unmentioned _ _ E1).
Qed.

Lemma get_setdefault (V : Type) (d : dict V) k k' (dflt : V) :
  get (setdefault d k dflt) k' =
  if String.eqb k k' then Some (get_default d k dflt) else get d k'.
Proof.
  unfold setdefault, contains, get_default.
  destruct (get d k) as [v|] eqn:E.
  - destruct (String.eqb_spec k k') as [<-|_]; auto.
  - rewrite get_set. destruct (String.eqb_spec k k'); auto.
Qed.

Section Loop.

Import Insights.

(** The [try] statement never raises, leaves [mood_counts] alone, and
    registers the key whether or not the value converts. *)
Lemma accumulate_spec kv st :
  exists acc,
    accumulate kv st = ({| mood_counts := mood_counts st; metrics_acc := acc |}, Ok tt)
    /\ forall k, get acc k = extend (get (metrics_acc st) k) k [kv].
Proof.
  destruct kv as [k0 v].
  unfold accumulate, try_except, bindM, acc_setdefault, acc_append, eval, modify, ret.
  unfold extend, mentions, coerced. simpl.
  destruct (py_float v) as [f|e]; simpl; eexists; (split; [reflexivity|]); intros k.
  - rewrite get_set. unfold get_default at 1.
    rewrite get_setdefault, String.eqb_refl.
    destruct (String.eqb_spec k0 k) as [->|Hne]; simpl; [reflexivity|].
    rewrite get_setdefault.
    now destruct (String.eqb_spec k0 k).
  - rewrite get_setdefault.
    destruct (String.eqb_spec k0 k) as [->|Hne]; simpl; auto.
    now rewrite app_nil_r.
Qed.

Lemma for_each_accumulate pairs : forall st,
  exists acc,
    for_each pairs accumulate st =
      ({| mood_counts := mood_counts st; metrics_acc := acc |}, Ok tt)
    /\ forall k, get acc k = extend (get (metrics_acc st) k) k pairs.
Proof.
  induction pairs as [|kv pairs IH]; intros st; simpl.
  - exists (metrics_acc st). split; [now destruct st | auto].
  - unfold bindM. destruct (accumulate_spec kv st) as (acc1 & -> & H1).
    destruct (IH {| mood_counts := mood_counts st; metrics_acc := acc1 |})
      as (acc2 & -> & H2).
    exists acc2. split; auto. intros k. simpl in H2.
    rewrite H2, H1. apply (extend_app _ k [kv] pairs).
Qed.

Lemma visit_spec e st :
  exists acc,
    visit e st =
      ({| mood_counts := count_elem (mood_counts st) (label e);
          metrics_acc := acc |}, Ok tt)
    /\ forall k,
         get acc k =
         extend (get (metrics_acc st) k) k (metrics_or_empty (metrics e)).
Proof.
  unfold visit, bindM, count_mood, modify.
  match goal with
  | |- context [for_each ?p accumulate ?s] =>
      destruct (for_each_accumulate p s) as (acc & -> & H)
  end.
  exists acc. split; auto.
Qed.

Lemma for_each_visit items : forall st,
  exists acc,
    for_each items visit st =
      ({| mood_counts := fold_left count_elem (map label items) (mood_counts st);
          metrics_acc := acc |}, Ok tt)
    /\ forall k, get acc k = extend (get (metrics_acc st) k) k (all_pairs items).
Proof.
  induction items as [|e items IH]; intros st; simpl.
  - exists (metrics_acc st). split; [now destruct st | auto].
  - unfold bindM. destruct (visit_spec e st) as (acc1 & -> & H1).
    match goal with
    | |- context [for_each items visit ?s] =>
        destruct (IH s) as (acc2 & -> & H2)
    end.
    exists acc2. split; auto. intros k. simpl in H2.
    rewrite H2, H1. apply extend_app.
Qed.

Lemma average_ok kv : average kv = Ok (fst kv, average_of (snd kv)).
Proof.
  destruct kv as [k [|f v]]; reflexivity.
Qed.

Lemma comprehension_average acc :
  comprehension average acc =
  Ok (map (fun kv => (fst kv, average_of (snd kv))) acc).
Proof.
  induction acc as [|kv acc IH]; simpl; auto.
  now rewrite average_ok, IH.
Qed.

Lemma get_map_values (A B : Type) (f : A -> B) (d : dict A) k :
  get (map (fun kv => (fst kv, f (snd kv))) d) k = option_map f (get d k).
Proof.
  induction d as [|[k' a] d IH]; simpl; auto.
  destruct (String.eqb k' k); auto.
Qed.

(** What [insights_summary] returns, for every sequence of documents. *)
Lemma insights_summary_spec items :
  exists s,
    insights_summary items = Ok s
    /\ moodCounts s = Counter (map label items)
    /\ count s = Z.of_nat (List.length items)
    /\ forall k,
         get (metricAverages s) k =
         option_map average_of (extend None k (all_pairs items)).
Proof.
  unfold insights_summary.
  destruct (for_each_visit items init) as (acc & -> & H). simpl.
  rewrite comprehension_average. simpl.
  eexists. split; [reflexivity|]. simpl. repeat split.
  intros k. now rewrite get_map_values, H.
Qed.

End Loop.

Lemma sum_values_fold l : forall d,
  sum_values (fold_left count_elem l d) = (sum_values d + Z.of_nat (List.length l))%Z.
Proof.
  induction l as [|w l IH]; intros d; simpl fold_left.
  - simpl. lia.
  - rewrite IH. unfold count_elem. rewrite sum_values_set.
    simpl List.length. lia.
Qed.

Lemma sum_values_Counter l : sum_values (Counter l) = Z.of_nat (List.length l).
Proof. unfold Counter. now rewrite sum_values_fold. Qed.

(** * The claims about [insights_summary] *)

Section InsightsClaims.

Import Insights.

(** C2, as the code has it. For every sequence of documents the
    aggregation returns, and a pair whose value does not convert adds no
    value to any average; its key is registered all the same, because the
    list is created before the conversion is tried. So the averages have a
    key for every metric key that occurs in a document; the average of a
    key is taken over exactly the values that converted; and it is the
    integer 0 of the empty-list branch exactly when none did. *)
Theorem C2_failed_coercion_keeps_key :
  forall items, exists s,
    insights_summary items = Ok s
    /\ (forall k,
          get (metricAverages s) k =
          if mentions k (all_pairs items)
          then Some (average_of (coerced k (all_pairs items)))
          else None)
    /\ (forall k,
          get (metricAverages s) k = Some (PyInt 0) <->
          mentions k (all_pairs items) = true /\ coerced k (all_pairs items) = []).
Proof.
  intros items. destruct (insights_summary_spec items) as (s & Hs & _ & _ & Hget).
  exists s. split; [exact Hs|].
  assert (Heq : forall k,
            get (metricAverages s) k =
            if mentions k (all_pairs items)
            then Some (average_of (coerced k (all_pairs items)))
            else None).
  { intros k. rewrite Hget. unfold extend.
    destruct (mentions k (all_pairs items)); reflexivity. }
  split; [exact Heq|].
  intros k. rewrite Heq.
  destruct (mentions k (all_pairs items)); [|split; [discriminate | intros [? _]; discriminate]].
  destruct (coerced k (all_pairs items)) as [|f v]; simpl.
  - tauto.
  - split; [discriminate | intros [_ ?]; discriminate].
Qed.

(** C2 as stated fails: one document whose only metric is sleep = "bad"
    yields the key sleep with the average 0, although no value of sleep
    converted. *)
Lemma C2_counterexample :
  ~ (forall items s,
       insights_summary items = Ok s ->
       forall k a,
         get (metricAverages s) k = Some a ->
         coerced k (all_pairs items) <> [] /\ a <> PyInt 0).
Proof.
  intros H.
  destruct (H [ {| mood := None; metrics := Some [("sleep", PyStr "bad")] |} ]
              {| moodCounts := [("unknown", 1%Z)];
                 metricAverages := [("sleep", PyInt 0)];
                 count := 1 |}
              eq_refl "sleep" (PyInt 0) eq_refl) as [_ Hne].
  now apply Hne.
Qed.

(** C4. For every sequence of documents the mood counts add up to the
    returned count, which is the number of documents; each document is
    counted once, under its lower-cased mood, a missing or empty mood
    being counted under "unknown". *)
Theorem C4_mood_counts_sum :
  forall items, exists s,
    insights_summary items = Ok s
    /\ sum_values (moodCounts s) = count s
    /\ count s = Z.of_nat (List.length items)
    /\ (forall m,
          get (moodCounts s) m =
          if (occurrences (map label items) m =? 0)%nat then None
          else Some (Z.of_nat (occurrences (map label items) m)))
    /\ (forall md, label {| mood := None; metrics := md |} = "unknown")
    /\ (forall md, label {| mood := Some ""; metrics := md |} = "unknown").
Proof.
  intros items. destruct (insights_summary_spec items) as (s & Hs & Hm & Hc & _).
  exists s. split; [exact Hs|]. rewrite Hm, Hc. repeat split.
  - now rewrite sum_values_Counter, length_map.
  - intros m. apply Counter_get.
Qed.

(** C6. The two documents mood = "Happy", sleep = "7" and mood = null,
    sleep = "bad" are summarised as happy: 1, unknown: 1, the average 7.0
    for sleep, and count 2; "7" converts to 7.0, "bad" does not convert,
    and no error reaches the caller. *)
Theorem C6_example_summary :
  insights_summary
    [ {| mood := Some "Happy"; metrics := Some [("sleep", PyStr "7")] |};
      {| mood := None; metrics := Some [("sleep", PyStr "bad")] |} ]
  = Ok {| moodCounts := [("happy", 1%Z); ("unknown", 1%Z)];
          metricAverages := [("sleep", PyFloat 7)];
          count := 2 |}
  /\ py_float (PyStr "7") = Ok 7%float
  /\ py_float (PyStr "bad") = Raise ValueError.
Proof. repeat split; vm_compute; reflexivity. Qed.

End InsightsClaims.

(** C9. Both functions return for every input and raise nothing: the
    doodle has a palette that is "sunset" or "midnight" and one item for
    each of its at most 8 keywords, the summary counts the documents; an
    absent or empty text with no answers and no metrics gives the midnight
    palette with no item and no keyword, and no document gives the empty
    summary. *)
Theorem C9_total :
  (forall req, exists d,
     Doodle.generate_doodle req = Ok d
     /\ (Doodle.palette d = "sunset" \/ Doodle.palette d = "midnight")
     /\ List.length (Doodle.items d) = List.length (Doodle.keywords d)
     /\ (List.length (Doodle.keywords d) <= 8)%nat)
  /\ (forall items, exists s,
        Insights.insights_summary items = Ok s
        /\ Insights.count s = Z.of_nat (List.length items))
  /\ Doodle.generate_doodle
       {| Doodle.text := None; Doodle.answers := []; Doodle.metrics := [] |}
     = Ok {| Doodle.palette := "midnight"; Doodle.items := [];
             Doodle.keywords := [] |}
  /\ Doodle.generate_doodle
       {| Doodle.text := Some ""; Doodle.answers := []; Doodle.metrics := [] |}
     = Ok {| Doodle.palette := "midnight"; Doodle.items := [];
             Doodle.keywords := [] |}
  /\ Insights.insights_summary []
     = Ok {| Insights.moodCounts := []; Insights.metricAverages := [];
             Insights.count := 0 |}.
Proof.
  split; [|split; [|repeat split]].
  - intros req. eexists. split; [apply generate_doodle_eq|].
    cbn [Doodle.palette Doodle.items Doodle.keywords]. split; [|split].
    + apply palette_for_cases.
    + now rewrite canvas_length, length_map.
    + apply top_of_length.
  - intros items.
    destruct (insights_summary_spec items) as (s & Hs & _ & Hc & _).
    exists s. now split.
Qed.

(** * Further properties of the doodle generator *)

(** ** Lower case *)

Lemma lower_app s1 s2 : lower (s1 ++ s2) = (lower s1 ++ lower s2)%string.
Proof. induction s1 as [|c s1 IH]; simpl; [reflexivity | now rewrite IH]. Qed.

Lemma lower_char_idem c : lower_char (lower_char c) = lower_char c.
Proof. destruct c as [[] [] [] [] [] [] [] []]; reflexivity. Qed.

Lemma lower_idem s : lower (lower s) = lower s.
Proof.
  induction s as [|c s IH]; simpl; [reflexivity|].
  now rewrite lower_char_idem, IH.
Qed.

Lemma lower_join_space l : lower (join " " l) = join " " (map lower l).
Proof.
  unfold join. induction l as [|x l IH]; [reflexivity|].
  destruct l as [|y l]; [reflexivity|].
  change (String.concat " " (x :: y :: l))
    with (x ++ " " ++ String.concat " " (y :: l))%string.
  change (String.concat " " (map lower (x :: y :: l)))
    with (lower x ++ " " ++ String.concat " " (map lower (y :: l)))%string.
  now rewrite !lower_app, IH.
Qed.

Lemma lower_nonempty s : s <> "" -> lower s <> "".
Proof. destruct s; simpl; [tauto | discriminate]. Qed.

(** ** Runs of a character class *)

Lemma str_app_nil_r s : (s ++ "")%string = s.
Proof. induction s as [|c s IH]; simpl; [reflexivity | now rewrite IH]. Qed.

Lemma str_app_assoc s1 s2 s3 :
  ((s1 ++ s2) ++ s3)%string = (s1 ++ (s2 ++ s3))%string.
Proof. induction s1 as [|c s1 IH]; simpl; [reflexivity | now rewrite IH]. Qed.

Lemma runs_from_sep p cur a c b :
  p c = false ->
  runs_from p cur (a ++ String c b) = (runs_from p cur a ++ runs p b)%list.
Proof.
  intros Hc. revert cur. induction a as [|x a IH]; intros cur; simpl.
  - now rewrite Hc.
  - destruct (p x); [apply IH|].
    unfold runs in IH. now rewrite IH, app_assoc.
Qed.

Lemma runs_sep p a c b :
  p c = false -> runs p (a ++ String c b) = (runs p a ++ runs p b)%list.
Proof. apply runs_from_sep. Qed.

Lemma runs_from_word p w : forall cur,
  (forall c, In c (chars w) -> p c = true) ->
  (cur ++ w)%string <> "" ->
  runs_from p cur w = [(cur ++ w)%string].
Proof.
  induction w as [|c w IH]; intros cur Hall Hne; simpl.
  - destruct cur; simpl in *; [tauto|].
    now rewrite str_app_nil_r.
  - rewrite (Hall c (or_introl eq_refl)).
    rewrite IH.
    + now rewrite str_app_assoc.
    + intros c' Hc'. apply Hall. now right.
    + rewrite str_app_assoc. simpl. exact Hne.
Qed.

Lemma findall_words_join l :
  Doodle.findall_words (join " " l) = flat_map Doodle.findall_words l.
Proof.
  unfold join, Doodle.findall_words. induction l as [|x l IH]; [reflexivity|].
  destruct l as [|y l].
  - simpl. now rewrite app_nil_r.
  - change (String.concat " " (x :: y :: l))
      with (x ++ String " "%char (String.concat " " (y :: l)))%string.
    rewrite runs_sep by reflexivity. now rewrite IH.
Qed.

Lemma content_parts req : Doodle.content req = join " " (parts req).
Proof. reflexivity. Qed.

Lemma tokens_parts req :
  Doodle.tokens req =
  flat_map (fun part => Doodle.findall_words (lower part)) (parts req).
Proof.
  unfold Doodle.tokens. rewrite content_parts, lower_join_space.
  rewrite findall_words_join. now rewrite flat_map_concat_map, map_map,
    <- flat_map_concat_map.
Qed.

Lemma parts_lowered req : parts (lowered req) = map lower (parts req).
Proof.
  unfold parts, lowered, values. simpl. f_equal.
  - now destruct (Doodle.text req).
  - now rewrite !map_map.
Qed.

Lemma tokens_lowered req : Doodle.tokens (lowered req) = Doodle.tokens req.
Proof.
  rewrite !tokens_parts, parts_lowered.
  rewrite !flat_map_concat_map, map_map. f_equal.
  apply map_ext. intros s. now rewrite lower_idem.
Qed.

Section DoodleExtras.

Import Doodle.

(** X1. The tokens of the corpus are the tokens of the text followed by
    the tokens of each answer in turn: joining the parts with a space
    neither merges two words nor splits one. *)
Theorem X1_tokens_by_part :
  forall req,
    tokens req =
    (findall_words (lower (text_or_empty (text req)))
     ++ flat_map (fun a => findall_words (lower a)) (values (answers req)))%list.
Proof. intros req. now rewrite tokens_parts. Qed.

(** X2. The response does not depend on the case of the text and of the
    answers: the request put in lower case gets the same response. *)
Theorem X2_case_insensitive :
  forall req, generate_doodle (lowered req) = generate_doodle req.
Proof.
  intros req. rewrite !generate_doodle_eq.
  assert (Htop : top (lowered req) = top req).
  { unfold top, words. now rewrite tokens_lowered. }
  now rewrite Htop.
Qed.

End DoodleExtras.

(** ** The grid *)

Lemma place_bounds i e :
  (i < 8)%nat ->
  (Doodle.x (Doodle.place (i, e)) = 32 + 96 * (Z.of_nat i mod 4)
   /\ Doodle.y (Doodle.place (i, e)) = 32 + 96 * (Z.of_nat i / 4)
   /\ 0 <= Z.of_nat i mod 4 <= 3
   /\ 0 <= Z.of_nat i / 4 <= 1)%Z.
Proof.
  intros Hi. unfold Doodle.place, Doodle.cols. simpl.
  do 8 (destruct i as [|i]; [vm_compute; repeat split; discriminate|]).
  lia.
Qed.

Lemma place_injective i j e e' :
  (i < 8)%nat -> (j < 8)%nat ->
  Doodle.x (Doodle.place (i, e)) = Doodle.x (Doodle.place (j, e')) ->
  Doodle.y (Doodle.place (i, e)) = Doodle.y (Doodle.place (j, e')) ->
  i = j.
Proof.
  intros Hi Hj. unfold Doodle.place, Doodle.cols. simpl.
  do 8 (destruct i as [|i]; [do 8 (destruct j as [|j];
        [vm_compute; intros; first [reflexivity | discriminate]|]); lia|]).
  lia.
Qed.

(** ** The library *)

Lemma library_types w e :
  get Doodle.library w = Some e ->
  Doodle.type e = "element" \/ Doodle.type e = "character".
Proof.
  intros H. apply get_In in H. unfold Doodle.library in H. simpl in H.
  repeat (destruct H as [H|H]; [inversion H; subst; simpl; auto|]).
  destruct H.
Qed.

(** ** Regenerating from the keywords *)

Lemma lower_fixed s :
  (forall c, In c (chars s) -> is_ascii_lower c = true \/ c = "'"%char) ->
  lower s = s.
Proof.
  unfold chars. induction s as [|c s IH]; simpl; intros H; [reflexivity|].
  rewrite IH by (intros c' Hc'; apply H; now right). f_equal.
  destruct (H c (or_introl eq_refl)) as [Hc| ->]; [|reflexivity].
  revert Hc. destruct c as [[] [] [] [] [] [] [] []]; vm_compute;
    intros Hc; first [reflexivity | discriminate Hc].
Qed.

Lemma lower_or_apostrophe_word c :
  is_ascii_lower c = true \/ c = "'"%char -> Doodle.is_word_char c = true.
Proof.
  unfold Doodle.is_word_char. intros [H| ->]; [now rewrite H | reflexivity].
Qed.

Lemma filter_all (A : Type) (f : A -> bool) l :
  (forall a, In a l -> f a = true) -> filter f l = l.
Proof.
  induction l as [|a l IH]; simpl; intros H; [reflexivity|].
  rewrite (H a (or_introl eq_refl)). f_equal. apply IH. intros; apply H; now right.
Qed.

Lemma set_fresh (V : Type) (d : dict V) k v :
  ~ In k (keys d) -> set d k v = (d ++ [(k, v)])%list.
Proof.
  unfold keys. induction d as [|[k' v'] d IH]; simpl; intros H; [reflexivity|].
  destruct (String.eqb_spec k' k) as [->|Hne]; [tauto|].
  f_equal. apply IH. tauto.
Qed.

Lemma Counter_NoDup ws :
  NoDup ws -> Counter ws = map (fun w => (w, 1%Z)) ws.
Proof.
  induction ws as [|w ws IH] using rev_ind; intros Hnd; [reflexivity|].
  apply NoDup_remove in Hnd. rewrite app_nil_r in Hnd. destruct Hnd as [Hnd Hw].
  rewrite Counter_snoc, map_app. unfold count_elem, get_default.
  rewrite <- Counter_keys_In in Hw.
  rewrite (proj2 (get_None_keys _ _) Hw).
  rewrite set_fresh by exact Hw. now rewrite IH.
Qed.

Lemma sorted_desc_constant (l : list (string * Z)) n :
  (forall it, In it l -> snd it = n) -> sorted_desc l = l.
Proof.
  induction l as [|it l IH]; simpl; intros H; [reflexivity|].
  rewrite IH by (intros; apply H; now right).
  destruct l as [|it' l]; [reflexivity|]. simpl.
  rewrite (H it (or_introl eq_refl)), (H it' (or_intror (or_introl eq_refl))).
  now rewrite Z.ltb_irrefl.
Qed.

Lemma top_of_distinct ws :
  NoDup ws -> (List.length ws <= 8)%nat -> Doodle.top_of ws = ws.
Proof.
  intros Hnd Hlen. unfold Doodle.top_of, most_common.
  rewrite (Counter_NoDup Hnd).
  rewrite sorted_desc_constant with (n := 1%Z).
  - rewrite firstn_all2 by (now rewrite length_map).
    rewrite map_map. simpl. apply map_id.
  - intros it Hit. apply in_map_iff in Hit. now destruct Hit as (w & <- & _).
Qed.

Lemma tokens_from_keywords ks m :
  (forall k, In k ks ->
     k <> "" /\
     forall c, In c (chars k) -> is_ascii_lower c = true \/ c = "'"%char) ->
  Doodle.tokens (from_keywords ks m) = ks.
Proof.
  intros H. rewrite tokens_parts. unfold parts, from_keywords. simpl.
  rewrite app_nil_r, lower_join_space, findall_words_join.
  rewrite flat_map_concat_map, map_map.
  rewrite <- flat_map_concat_map.
  induction ks as [|k ks IH]; [reflexivity|]. simpl.
  destruct (H k (or_introl eq_refl)) as [Hne Hchars].
  rewrite (lower_fixed _ Hchars). unfold Doodle.findall_words at 1, runs.
  rewrite runs_from_word.
  - simpl. f_equal. apply IH. intros; apply H; now right.
  - intros c Hc. now apply lower_or_apostrophe_word, Hchars.
  - exact Hne.
Qed.

Section DoodleMore.

Import Doodle.

(** X3. The items lie on a grid of 4 columns and 2 rows: every item has
    x in 32..320 and y in 32..128, so with its size of 64 it fits a canvas
    of 384 by 224, and two different items never share a position. *)
Theorem X3_items_fit_and_do_not_overlap :
  forall req, exists d,
    generate_doodle req = Ok d
    /\ (forall it, In it (items d) ->
          (32 <= x it /\ x it + size it <= 384
           /\ 32 <= y it /\ y it + size it <= 224)%Z)
    /\ (forall i j a b,
          i <> j ->
          nth_error (items d) i = Some a ->
          nth_error (items d) j = Some b ->
          (x a, y a) <> (x b, y b)).
Proof.
  intros req. eexists. split; [apply generate_doodle_eq|].
  cbn [items]. set (els := map element_of (top req)).
  assert (Hlen : (List.length els <= 8)%nat).
  { unfold els. rewrite length_map. apply top_of_length. }
  assert (Hnth : forall i a, nth_error (canvas els) i = Some a ->
            exists e, (i < 8)%nat /\ a = place (i, e)).
  { intros i a Ha. rewrite nth_error_canvas in Ha.
    destruct (nth_error els i) as [e|] eqn:He; [|discriminate].
    exists e. split; [|cbn [option_map] in Ha; now inversion Ha].
    assert (i < List.length els)%nat by (apply nth_error_Some; congruence). lia. }
  split.
  - intros it Hit. apply In_nth_error in Hit. destruct Hit as [i Hi].
    destruct (Hnth i it Hi) as (e & Hlt & ->).
    destruct (place_bounds e Hlt) as (-> & -> & Hx & Hy).
    unfold place. cbn [size]. lia.
  - intros i j a b Hij Ha Hb Heq.
    destruct (Hnth i a Ha) as (e & Hi & ->).
    destruct (Hnth j b Hb) as (e' & Hj & ->).
    apply Hij. apply (@place_injective i j e e' Hi Hj).
    + exact (f_equal fst Heq).
    + exact (f_equal snd Heq).
Qed.

(** X4. Every item is an element, a character or a tag; it is a tag
    exactly when its keyword is not a key of the library, and a tag is
    named after its keyword. *)
Theorem X4_item_types :
  forall req, exists d,
    generate_doodle req = Ok d
    /\ forall i w it,
         nth_error (keywords d) i = Some w ->
         nth_error (items d) i = Some it ->
         (type (el it) = "element" \/ type (el it) = "character"
          \/ type (el it) = "tag")
         /\ (type (el it) = "tag" <-> contains library w = false)
         /\ (type (el it) = "tag" -> name (el it) = w).
Proof.
  intros req. eexists. split; [apply generate_doodle_eq|].
  cbn [keywords items]. intros i w it Hw Hit.
  rewrite nth_error_canvas, nth_error_map, Hw in Hit.
  cbn [option_map] in Hit. inversion Hit; subst. unfold place. cbn [el].
  unfold element_of, contains.
  destruct (get library w) as [e|] eqn:He.
  - destruct (library_types _ He) as [Ht|Ht]; rewrite Ht;
      repeat split; auto; discriminate.
  - cbn [type name]. repeat split; auto.
Qed.

(** X5. The keywords are a fixed point: the request whose text is the
    keywords of a response, joined by spaces, with the same metrics, gets
    that same response. *)
Theorem X5_keywords_regenerate :
  forall req, exists d,
    generate_doodle req = Ok d
    /\ generate_doodle (from_keywords (keywords d) (metrics req)) = Ok d.
Proof.
  intros req. eexists. split; [apply generate_doodle_eq|].
  cbn [keywords]. rewrite generate_doodle_eq.
  assert (Hk : forall k, In k (top req) ->
            keep k = true /\
            forall c, In c (chars k) -> is_ascii_lower c = true \/ c = "'"%char).
  { intros k Hk. apply top_of_In, filter_In in Hk. destruct Hk as [Ht Hkeep].
    split; auto. intros c Hc. eapply tokens_chars; eauto. }
  assert (Htop : top (from_keywords (top req) (metrics req)) = top req).
  { unfold top at 1, words. rewrite tokens_from_keywords.
    - rewrite filter_all by (intros k Hk'; now apply Hk).
      apply top_of_distinct; [apply top_of_NoDup | apply top_of_length].
    - intros k Hk'. destruct (Hk k Hk') as [Hkeep Hchars]. split; auto.
      apply keep_spec in Hkeep. destruct Hkeep as [_ Hlen].
      intros ->. simpl in Hlen. lia. }
  now rewrite Htop.
Qed.

End DoodleMore.

(** * Further properties of the insights aggregator *)

Lemma label_nonempty e : label e <> "".
Proof.
  unfold label. apply lower_nonempty.
  destruct (Insights.mood e) as [[|c s]|]; simpl; discriminate.
Qed.

Lemma label_lower e : lower (label e) = label e.
Proof. unfold label. apply lower_idem. Qed.

Lemma label_lowered_mood e : label (lowered_mood e) = label e.
Proof.
  unfold label, lowered_mood. simpl.
  destruct (Insights.mood e) as [[|c s]|]; simpl; auto.
  now rewrite lower_char_idem, lower_idem.
Qed.

Lemma Counter_get_default ws k :
  get_default (Counter ws) k 0%Z = Z.of_nat (occurrences ws k).
Proof.
  unfold get_default. rewrite Counter_get.
  destruct (Nat.eqb_spec (occurrences ws k) 0) as [E|E]; [now rewrite E | reflexivity].
Qed.

Lemma contains_map_values (A B : Type) (f : A -> B) (d : dict A) k :
  contains (map (fun kv => (fst kv, f (snd kv))) d) k = contains d k.
Proof.
  unfold contains. rewrite get_map_values. now destruct (get d k).
Qed.

Lemma mentions_In k pairs : mentions k pairs = true <-> In k (map fst pairs).
Proof.
  unfold mentions. rewrite existsb_exists, in_map_iff.
  split; intros (kv & H1 & H2); exists kv.
  - apply String.eqb_eq in H2. now split.
  - split; auto. now apply String.eqb_eq.
Qed.

Lemma mentions_Permutation k p1 p2 :
  Permutation p1 p2 -> mentions k p1 = mentions k p2.
Proof.
  intros Hp. apply eq_true_iff_eq. rewrite !mentions_In.
  split; apply Permutation_in; [|apply Permutation_sym]; now apply Permutation_map.
Qed.

(** ** The keys of [metrics_acc] *)

Lemma contains_keys_eq (A B : Type) (d : dict A) (d' : dict B) k :
  keys d = keys d' -> contains d k = contains d' k.
Proof.
  intros H. apply eq_true_iff_eq. rewrite !contains_In_keys. now rewrite H.
Qed.

Lemma keys_setdefault (V : Type) (d : dict V) k dflt :
  keys (setdefault d k dflt) = if contains d k then keys d else (keys d ++ [k])%list.
Proof.
  unfold setdefault. destruct (contains d k) eqn:E; [reflexivity|].
  now rewrite keys_set, E.
Qed.

Lemma contains_setdefault (V : Type) (d : dict V) k dflt :
  contains (setdefault d k dflt) k = true.
Proof. unfold contains. now rewrite get_setdefault, String.eqb_refl. Qed.

Section Keys.

Import Insights.

Lemma accumulate_keys kv st (c : dict Z) :
  keys (metrics_acc st) = keys c ->
  keys (metrics_acc (fst (accumulate kv st))) = keys (count_elem c (fst kv)).
Proof.
  intros Hk. destruct kv as [k v].
  unfold accumulate, try_except, bindM, acc_setdefault, acc_append, eval, modify, ret.
  unfold count_elem. simpl. rewrite keys_set, <- (contains_keys_eq _ _ k Hk), <- Hk.
  destruct (py_float v) as [f|e]; simpl.
  - now rewrite keys_set, contains_setdefault, keys_setdefault.
  - apply keys_setdefault.
Qed.

Lemma for_each_accumulate_keys pairs : forall st (c : dict Z),
  keys (metrics_acc st) = keys c ->
  keys (metrics_acc (fst (for_each pairs accumulate st))) =
  keys (fold_left count_elem (map fst pairs) c).
Proof.
  induction pairs as [|kv pairs IH]; intros st c Hk; simpl; [exact Hk|].
  unfold bindM. pose proof (accumulate_keys kv st c Hk) as H1.
  destruct (accumulate_spec kv st) as (acc & E & _). rewrite E in *.
  now apply IH.
Qed.

Lemma visit_keys e st (c : dict Z) :
  keys (metrics_acc st) = keys c ->
  keys (metrics_acc (fst (visit e st))) =
  keys (fold_left count_elem (map fst (metrics_or_empty (metrics e))) c).
Proof.
  intros Hk. unfold visit, bindM, count_mood, modify.
  now apply for_each_accumulate_keys.
Qed.

Lemma for_each_visit_keys items : forall st (c : dict Z),
  keys (metrics_acc st) = keys c ->
  keys (metrics_acc (fst (for_each items visit st))) =
  keys (fold_left count_elem (map fst (all_pairs items)) c).
Proof.
  induction items as [|e items IH]; intros st c Hk; simpl; [exact Hk|].
  unfold bindM. pose proof (visit_keys e st c Hk) as H1.
  destruct (visit_spec e st) as (acc & E & _). rewrite E in *.
  rewrite map_app, fold_left_app. now apply IH.
Qed.

Lemma metric_keys_first_seen items :
  exists s,
    insights_summary items = Ok s
    /\ keys (metricAverages s) = keys (Counter (map fst (all_pairs items))).
Proof.
  unfold insights_summary.
  pose proof (@for_each_visit_keys items init [] eq_refl) as Hk.
  destruct (for_each_visit items init) as (acc & E & _). rewrite E in *.
  simpl in Hk. simpl. rewrite comprehension_average. simpl.
  eexists. split; [reflexivity|]. simpl.
  unfold keys in *. rewrite map_map. simpl. exact Hk.
Qed.

Lemma visit_lowered_mood e st : visit (lowered_mood e) st = visit e st.
Proof.
  unfold visit. fold (label (lowered_mood e)). fold (label e).
  now rewrite label_lowered_mood.
Qed.

Lemma for_each_visit_lowered items : forall st,
  for_each (map lowered_mood items) visit st = for_each items visit st.
Proof.
  induction items as [|e items IH]; intros st; simpl; [reflexivity|].
  unfold bindM. rewrite visit_lowered_mood.
  destruct (visit e st) as [st' [[]|x]]; auto.
Qed.

(** X6. The mood counts are keyed by distinct labels, none of them empty
    and each in lower case, and every count is at least 1 and at most the
    number of documents. *)
Theorem X6_mood_labels :
  forall items, exists s,
    insights_summary items = Ok s
    /\ NoDup (keys (moodCounts s))
    /\ forall m n,
         get (moodCounts s) m = Some n ->
         m <> "" /\ lower m = m /\ (1 <= n <= count s)%Z.
Proof.
  intros items. destruct (insights_summary_spec items) as (s & Hs & Hm & Hc & _).
  exists s. split; [exact Hs|]. rewrite Hm, Hc.
  split; [apply Counter_keys_NoDup|].
  intros m n Hget. apply get_In, Counter_items in Hget. destruct Hget as [Hin ->].
  apply in_map_iff in Hin. destruct Hin as (e & <- & He).
  split; [apply label_nonempty|]. split; [apply label_lower|].
  assert (In (label e) (map label items)) as Hpos by now apply in_map.
  apply occurrences_pos in Hpos.
  pose proof (count_occ_bound string_dec (label e) (map label items)) as Hb.
  rewrite length_map in Hb. unfold occurrences in *. lia.
Qed.

(** X7. Summaries add up: for two sequences of documents, the count and
    every mood count of their concatenation are the sums of those of the
    two, and a metric has an average in the concatenation exactly when it
    has one in either. *)
Theorem X7_summaries_add_up :
  forall a b, exists sa sb sab,
    insights_summary a = Ok sa
    /\ insights_summary b = Ok sb
    /\ insights_summary (a ++ b) = Ok sab
    /\ count sab = (count sa + count sb)%Z
    /\ (forall m, mood_count sab m = (mood_count sa m + mood_count sb m)%Z)
    /\ (forall k,
          contains (metricAverages sab) k =
          contains (metricAverages sa) k || contains (metricAverages sb) k).
Proof.
  intros a b.
  destruct (insights_summary_spec a) as (sa & Hsa & Hma & Hca & Hga).
  destruct (insights_summary_spec b) as (sb & Hsb & Hmb & Hcb & Hgb).
  destruct (insights_summary_spec (a ++ b)) as (sab & Hsab & Hmab & Hcab & Hgab).
  exists sa, sb, sab. repeat split; auto.
  - rewrite Hca, Hcb, Hcab, length_app. lia.
  - intros m. unfold mood_count. rewrite Hma, Hmb, Hmab.
    rewrite !Counter_get_default, map_app. unfold occurrences.
    rewrite count_occ_app. lia.
  - intros k. unfold contains. rewrite Hga, Hgb, Hgab.
    unfold all_pairs. rewrite flat_map_app. unfold extend.
    rewrite mentions_app.
    now destruct (mentions k _), (mentions k _).
Qed.

(** X8. The order of the documents does not matter to the count, to any
    mood count, or to which metrics get an average. *)
Theorem X8_order_of_documents :
  forall a b,
    Permutation a b ->
    exists sa sb,
      insights_summary a = Ok sa
      /\ insights_summary b = Ok sb
      /\ count sa = count sb
      /\ (forall m, get (moodCounts sa) m = get (moodCounts sb) m)
      /\ (forall k,
            contains (metricAverages sa) k = contains (metricAverages sb) k).
Proof.
  intros a b Hp.
  destruct (insights_summary_spec a) as (sa & Hsa & Hma & Hca & Hga).
  destruct (insights_summary_spec b) as (sb & Hsb & Hmb & Hcb & Hgb).
  exists sa, sb. repeat split; auto.
  - rewrite Hca, Hcb. now rewrite (Permutation_length Hp).
  - intros m. rewrite Hma, Hmb, !Counter_get. unfold occurrences.
    assert (Hperm : Permutation (map label a) (map label b))
      by now apply Permutation_map.
    now rewrite (proj1 (Permutation_count_occ string_dec _ _) Hperm m).
  - intros k. unfold contains. rewrite Hga, Hgb. unfold extend.
    assert (Hperm : Permutation (all_pairs a) (all_pairs b))
      by now apply Permutation_flat_map.
    rewrite (mentions_Permutation k Hperm).
    now destruct (mentions k _).
Qed.

(** A permuted pair of documents for X8. *)
Lemma X8_order_of_documents_witness :
  exists sa sb,
    insights_summary
      [ {| mood := Some "Happy"; metrics := None |};
        {| mood := None; metrics := Some [("sleep", PyInt 7)] |} ] = Ok sa
    /\ insights_summary
      [ {| mood := None; metrics := Some [("sleep", PyInt 7)] |};
        {| mood := Some "Happy"; metrics := None |} ] = Ok sb
    /\ count sa = count sb
    /\ (forall m, get (moodCounts sa) m = get (moodCounts sb) m)
    /\ (forall k,
          contains (metricAverages sa) k = contains (metricAverages sb) k).
Proof.
  apply (@X8_order_of_documents
           [ {| mood := Some "Happy"; metrics := None |};
             {| mood := None; metrics := Some [("sleep", PyInt 7)] |} ]
           [ {| mood := None; metrics := Some [("sleep", PyInt 7)] |};
             {| mood := Some "Happy"; metrics := None |} ]).
  apply perm_swap.
Defined.

(** X9. The averages are keyed by the distinct metric keys of the
    documents, in the order in which the keys are first seen. *)
Theorem X9_metric_keys_first_seen :
  forall items, exists s,
    insights_summary items = Ok s
    /\ NoDup (keys (metricAverages s))
    /\ (forall k,
          In k (keys (metricAverages s)) <-> In k (map fst (all_pairs items)))
    /\ (forall i j a b,
          (i < j)%nat ->
          nth_error (keys (metricAverages s)) i = Some a ->
          nth_error (keys (metricAverages s)) j = Some b ->
          (first_index a (map fst (all_pairs items))
           < first_index b (map fst (all_pairs items)))%nat).
Proof.
  intros items. destruct (metric_keys_first_seen items) as (s & Hs & Hk).
  exists s. split; [exact Hs|]. rewrite Hk.
  split; [apply Counter_keys_NoDup|]. split; [intros k; apply Counter_keys_In|].
  intros i j a b Hij Ha Hb.
  exact (StronglySorted_nth_error (Counter_keys_sorted _) Hij Ha Hb).
Qed.

(** X10. The summary does not depend on the case of the moods: the
    documents with their moods put in lower case get the same summary. *)
Theorem X10_mood_case_insensitive :
  forall items,
    insights_summary (map lowered_mood items) = insights_summary items.
Proof.
  intros items. unfold insights_summary.
  now rewrite for_each_visit_lowered, length_map.
Qed.

End Keys.

(** * The daily affirmation *)

Lemma ord_sum_fold l : forall acc,
  fold_left (fun a c => (a + Z.of_nat (code c))%Z) l acc =
  (acc + fold_left (fun a c => (a + Z.of_nat (code c))%Z) l 0)%Z.
Proof.
  induction l as [|c l IH]; intros acc; simpl; [lia|].
  rewrite IH, (IH (Z.of_nat (code c))). lia.
Qed.

Lemma ord_sum_cons c s :
  Affirmation.ord_sum (String c s) = (Z.of_nat (code c) + Affirmation.ord_sum s)%Z.
Proof. unfold Affirmation.ord_sum. simpl. now rewrite ord_sum_fold. Qed.

Lemma ord_sum_app s1 s2 :
  Affirmation.ord_sum (s1 ++ s2) =
  (Affirmation.ord_sum s1 + Affirmation.ord_sum s2)%Z.
Proof.
  induction s1 as [|c s1 IH]; [reflexivity|].
  simpl. rewrite !ord_sum_cons, IH. lia.
Qed.



Lemma item_at_in_range (A : Type) (l : list A) z :
  l <> [] ->
  exists a,
    Affirmation.item_at l (z mod Z.of_nat (List.length l)) = Some a /\ In a l.
Proof.
  intros Hne.
  assert (Hlen : (0 < Z.of_nat (List.length l))%Z)
    by (destruct l; [tauto | simpl; lia]).
  pose proof (Z.mod_pos_bound z _ Hlen) as [Hlo Hhi].
  unfold Affirmation.item_at.
  destruct (Z.leb_spec 0 (z mod Z.of_nat (List.length l))) as [_|?]; [|lia].
  destruct (nth_error l (Z.to_nat (z mod Z.of_nat (List.length l)))) as [a|] eqn:E.
  - exists a. split; auto. eapply nth_error_In; eauto.
  - apply nth_error_None in E. lia.
Qed.

Lemma item_at_nat (A : Type) (l : list A) z :
  (0 <= z)%Z -> Affirmation.item_at l z = nth_error l (Z.to_nat z).
Proof.
  intros Hz. unfold Affirmation.item_at.
  destruct (Z.leb_spec 0 z); [reflexivity | lia].
Qed.

Lemma code_digit n : code (Affirmation.digit n) = (48 + n mod 10)%nat.
Proof.
  unfold code, Affirmation.digit. apply nat_ascii_embedding.
  pose proof (Nat.mod_upper_bound n 10). lia.
Qed.

Lemma ord_sum_two_digits n :
  Affirmation.ord_sum (Affirmation.zero_padded 2 n) =
  Z.of_nat (96 + (n / 10) mod 10 + n mod 10).
Proof.
  change (Affirmation.zero_padded 2 n)
    with (String (Affirmation.digit (n / 10)) (String (Affirmation.digit n) "")).
  rewrite !ord_sum_cons, !code_digit.
  change (Affirmation.ord_sum "") with 0%Z. lia.
Qed.

Lemma ord_sum_next_day n :
  (n mod 10 <> 9)%nat ->
  Affirmation.ord_sum (Affirmation.zero_padded 2 (S n)) =
  (Affirmation.ord_sum (Affirmation.zero_padded 2 n) + 1)%Z.
Proof.
  intros H. rewrite !ord_sum_two_digits.
  pose proof (Nat.div_mod_eq n 10). pose proof (Nat.div_mod_eq (S n) 10).
  pose proof (Nat.mod_upper_bound n 10). pose proof (Nat.mod_upper_bound (S n) 10).
  assert (E1 : (S n / 10 = n / 10)%nat) by lia.
  assert (E2 : (S n mod 10 = n mod 10 + 1)%nat) by lia.
  rewrite E1, E2. lia.
Qed.

Section AffirmationFacts.

Import Affirmation.

(** X11. Whatever the email and the dates, the index stays within the
    list: an affirmation of the list is returned, never an IndexError. An
    absent email and an empty one are both served as the email "anon". *)
Theorem X11_affirmation_in_range :
  forall today email on,
    (exists a, daily_affirmation today email on = Some a /\ In a AFFIRMATIONS)
    /\ daily_affirmation today None on = daily_affirmation today (Some "anon") on
    /\ daily_affirmation today (Some "") on
       = daily_affirmation today (Some "anon") on.
Proof.
  intros today email on. split; [|split; reflexivity].
  unfold daily_affirmation. apply item_at_in_range. discriminate.
Qed.



(** X13. From one day of a month to the next the affirmation moves one
    place down the list, going back to the top after the last, as long as
    the last digit of the day is not 9. *)
Theorem X13_affirmation_next_day :
  forall today email y m d,
    (d mod 10 <> 9)%nat ->
    exists i,
      (i < 7)%nat
      /\ daily_affirmation today email (Some {| year := y; month := m; day := d |})
         = nth_error AFFIRMATIONS i
      /\ daily_affirmation today email (Some {| year := y; month := m; day := S d |})
         = nth_error AFFIRMATIONS (S i mod 7).
Proof.
  intros today email y m d Hd. unfold daily_affirmation, isoformat.
  cbn [year month day].
  rewrite !ord_sum_app, (@ord_sum_next_day d Hd).
  set (s := (ord_sum (email_or_anon email)
             + (ord_sum (zero_padded 4 y)
                + (ord_sum "-"
                   + (ord_sum (zero_padded 2 m)
                      + (ord_sum "-" + ord_sum (zero_padded 2 d))))))%Z).
  replace (ord_sum (email_or_anon email)
           + (ord_sum (zero_padded 4 y)
              + (ord_sum "-"
                 + (ord_sum (zero_padded 2 m)
                    + (ord_sum "-" + (ord_sum (zero_padded 2 d) + 1))))))%Z
    with (s + 1)%Z by (unfold s; lia).
  change (Z.of_nat (List.length AFFIRMATIONS)) with 7%Z.
  pose proof (Z.mod_pos_bound s 7 eq_refl) as Hs.
  pose proof (Z.mod_pos_bound (s + 1) 7 eq_refl) as Hs1.
  exists (Z.to_nat (s mod 7)). split; [lia|].
  rewrite !item_at_nat by lia. split; [reflexivity|]. f_equal.
  rewrite <- Zplus_mod_idemp_l.
  rewrite <- (Z2Nat.id (s mod 7)) at 1 by lia.
  change 1%Z with (Z.of_nat 1). rewrite <- Nat2Z.inj_add.
  change 7%Z with (Z.of_nat 7). rewrite <- Nat2Z.inj_mod, Nat2Z.id.
  f_equal. lia.
Qed.

(** Two consecutive days for X13. *)
Lemma X13_affirmation_next_day_witness :
  exists i,
    (i < 7)%nat
    /\ daily_affirmation {| year := 2024; month := 1; day := 1 |} (Some "a@b.c")
         (Some {| year := 2024; month := 5; day := 17 |})
       = nth_error AFFIRMATIONS i
    /\ daily_affirmation {| year := 2024; month := 1; day := 1 |} (Some "a@b.c")
         (Some {| year := 2024; month := 5; day := 18 |})
       = nth_error AFFIRMATIONS (S i mod 7).
Proof.
  apply (@X13_affirmation_next_day
           {| year := 2024; month := 1; day := 1 |} (Some "a@b.c") 2024 5 17).
  vm_compute. discriminate.
Defined.

End AffirmationFacts.

(** * The document filters *)

Section QueryFacts.

Import Queries.

(** X14. The three endpoints build their filter alike: the todos are
    filtered as the entries are, and the insights as the entries with no
    single day asked for. *)
Theorem X14_filters_agree :
  forall email start end_ on,
    todos_filter email on start end_ = entries_filter email start end_ on
    /\ insights_filter email start end_ = entries_filter email start end_ None.
Proof.
  intros email start end_ on.
  destruct on, start, end_; split; reflexivity.
Qed.

(** X15. Every filter keeps the owner: whatever the dates, it asks for
    the given email under "user_email". It asks for a date exactly when a
    single day is given or both bounds of a range are; a range with one
    bound only is dropped without an error. *)
Theorem X15_filter_keeps_owner :
  forall email start end_ on,
    get (entries_filter email start end_ on) "user_email" = Some (Is_str email)
    /\ get (todos_filter email on start end_) "user_email" = Some (Is_str email)
    /\ get (insights_filter email start end_) "user_email" = Some (Is_str email)
    /\ (contains (entries_filter email start end_ on) "date" = true <->
        on <> None \/ (start <> None /\ end_ <> None))
    /\ (contains (insights_filter email start end_) "date" = true <->
        start <> None /\ end_ <> None).
Proof.
  intros email start end_ on.
  destruct on, start, end_; repeat split; try reflexivity; try discriminate;
    intros; try tauto; try (left; discriminate); intuition discriminate.
Qed.

End QueryFacts.

(** * Answers that add no word, and metrics that all convert *)

Lemma parts_add_answer req q a :
  parts {| Doodle.text := Doodle.text req;
           Doodle.answers := (Doodle.answers req ++ [(q, a)])%list;
           Doodle.metrics := Doodle.metrics req |}
  = (parts req ++ [a])%list.
Proof. unfold parts, values. simpl. now rewrite map_app. Qed.

Lemma coerced_nonempty k pairs :
  mentions k pairs = true ->
  (forall kv, In kv pairs -> exists f, py_float (snd kv) = Ok f) ->
  coerced k pairs <> [].
Proof.
  unfold mentions, coerced.
  induction pairs as [|kv pairs IH]; simpl; intros Hm Hall; [discriminate|].
  destruct (String.eqb (fst kv) k); simpl in *.
  - destruct (Hall kv (or_introl eq_refl)) as [f ->]. discriminate.
  - apply IH; auto.
Qed.

Section LastFacts.

(** X16. An answer that holds only stop words and words of at most two
    letters changes nothing: the request with that answer added gets the
    response of the request without it. *)
Theorem X16_answer_without_words :
  forall req q a,
    filter Doodle.keep (Doodle.findall_words (lower a)) = [] ->
    Doodle.generate_doodle
      {| Doodle.text := Doodle.text req;
         Doodle.answers := (Doodle.answers req ++ [(q, a)])%list;
         Doodle.metrics := Doodle.metrics req |}
    = Doodle.generate_doodle req.
Proof.
  intros req q a Ha. rewrite !generate_doodle_eq.
  cbn [Doodle.metrics].
  match goal with
  | |- context [Doodle.top ?r] =>
      assert (Htop : Doodle.top r = Doodle.top req)
  end.
  { unfold Doodle.top, Doodle.words.
    rewrite !tokens_parts, parts_add_answer, flat_map_app, filter_app.
    simpl. now rewrite app_nil_r, Ha, app_nil_r. }
  now rewrite Htop.
Qed.

(** An answer made of stop words and short words, for X16. *)
Lemma X16_answer_without_words_witness :
  Doodle.generate_doodle
    {| Doodle.text := Some "coffee with a friend";
       Doodle.answers := ([] ++ [("q1", "It is at my we, OK?")])%list;
       Doodle.metrics := [] |}
  = Doodle.generate_doodle
      {| Doodle.text := Some "coffee with a friend";
         Doodle.answers := [];
         Doodle.metrics := [] |}.
Proof.
  apply (@X16_answer_without_words
           {| Doodle.text := Some "coffee with a friend";
              Doodle.answers := [];
              Doodle.metrics := [] |}
           "q1" "It is at my we, OK?").
  vm_compute. reflexivity.
Defined.

(** X17. When every metric value of the documents converts to a float,
    every average is a float: the integer 0 of the empty-list branch does
    not appear. *)
Theorem X17_clean_metrics_float_averages :
  forall items,
    (forall kv, In kv (all_pairs items) -> exists f, py_float (snd kv) = Ok f) ->
    exists s,
      Insights.insights_summary items = Ok s
      /\ forall k a,
           get (Insights.metricAverages s) k = Some a ->
           exists f, a = PyFloat f.
Proof.
  intros items Hall.
  destruct (insights_summary_spec items) as (s & Hs & _ & _ & Hget).
  exists s. split; [exact Hs|]. intros k a Ha.
  rewrite Hget in Ha. unfold extend in Ha.
  destruct (mentions k (all_pairs items)) eqn:Hm; [|discriminate].
  pose proof (coerced_nonempty k _ Hm Hall) as Hne. simpl in Ha.
  destruct (coerced k (all_pairs items)) as [|f v]; [tauto|].
  inversion Ha. eexists. reflexivity.
Qed.

(** Two documents whose metrics all convert, for X17. *)
Lemma X17_clean_metrics_float_averages_witness :
  exists s,
    Insights.insights_summary
      [ {| Insights.mood := Some "calm";
           Insights.metrics := Some [("sleep", PyStr "7.5"); ("water", PyInt 3)] |};
        {| Insights.mood := None;
           Insights.metrics := Some [("sleep", PyFloat 6)] |} ] = Ok s
    /\ forall k a,
         get (Insights.metricAverages s) k = Some a ->
         exists f, a = PyFloat f.
Proof.
  apply (@X17_clean_metrics_float_averages
           [ {| Insights.mood := Some "calm";
                Insights.metrics :=
                  Some [("sleep", PyStr "7.5"); ("water", PyInt 3)] |};
             {| Insights.mood := None;
                Insights.metrics := Some [("sleep", PyFloat 6)] |} ]).
  simpl. intros kv [<-|[<-|[<-|[]]]]; eexists; vm_compute; reflexivity.
Defined.

End LastFacts.
